(** * ax-first: the typed-deserialization layer

    A shallow embedding of [src/deserializer.ts], [src/deserializer-validated.ts]
    (the hand-written validator), [src/deserializer-zod.ts] and
    [src/sentimentObject-schema.ts], with the fragment of the JavaScript
    runtime these files call ([typeof], [Array.isArray], [Object.create],
    [Object.assign], [JSON.parse], [Array.prototype.map], [Set.prototype.has])
    and the fragment of Zod the schema is written in ([z.object], [z.enum],
    [parse], [safeParse]). *)

From Stdlib Require Import Ascii String.
From stdpp Require Import gmap strings list fin_maps pretty.

#[local] Set Warnings "-register-all".
#[local] Open Scope string_scope.

(** ** Values

    What [JSON.parse] can return, plus [undefined] (the result of reading an
    absent property).  A number keeps its lexeme: no function of the
    repository computes with numbers.  A string is a Rocq [string], one
    character per code unit.  An object is a finite map from property names to
    values: the program never depends on property order. *)

Inductive value : Type :=
  | VUndefined
  | VNull
  | VBool (b : bool)
  | VNumber (lexeme : string)
  | VString (s : string)
  | VArray (items : list value)
  | VObject (props : gmap string value).

(** ** Exceptions and completions *)

(** One violation reported by Zod: where, and the human-readable text. *)
Record ZodIssue : Type := mkIssue {
  path : list string;
  message : string
}.

(** [z.ZodError]: the aggregate of every issue found in one pass. *)
Record ZodError : Type := mkZodError { issues : list ZodIssue }.

Inductive exn : Type :=
  | Error (msg : string)
  | SyntaxError (msg : string)
  | TypeError (msg : string)
  | ZodErr (e : ZodError).

(** A call either returns or throws. *)
Inductive outcome (A : Type) : Type :=
  | Return (a : A)
  | Throw (e : exn).
Arguments Return {A} a.
Arguments Throw {A} e.

Definition bind {A B} (c : outcome A) (k : A -> outcome B) : outcome B :=
  match c with
  | Return a => k a
  | Throw e => Throw e
  end.

#[local] Notation "'let*' x ':=' c 'in' k" := (bind c (fun x => k))
  (at level 10, x name, c at level 100, k at level 200).

(** [try { body } catch (error) { handler }] *)
Definition try_catch {A} (body : outcome A) (handler : exn -> outcome A) : outcome A :=
  match body with
  | Return a => Return a
  | Throw e => handler e
  end.

(** ** The runtime fragment *)

Definition typeof (v : value) : string :=
  match v with
  | VUndefined => "undefined"
  | VNull => "object"
  | VBool _ => "boolean"
  | VNumber _ => "number"
  | VString _ => "string"
  | VArray _ => "object"
  | VObject _ => "object"
  end.

(** [v === null] *)
Definition is_null (v : value) : bool :=
  match v with
  | VNull => true
  | _ => false
  end.

Definition Array_isArray (v : value) : bool :=
  match v with
  | VArray _ => true
  | _ => false
  end.

(** [arr.map(f)] for a callback that may throw: elements are visited in
    order and the first exception aborts the call. *)
Fixpoint Array_map {A B} (f : A -> outcome B) (arr : list A) : outcome (list B) :=
  match arr with
  | [] => Return []
  | item :: rest =>
      let* x := f item in
      let* xs := Array_map f rest in
      Return (x :: xs)
  end.

(** [set.has(v)] for a [Set] of strings. *)
Definition Set_has (set : list string) (v : value) : bool :=
  match v with
  | VString s => bool_decide (s ∈ set)
  | _ => false
  end.

(** [Array.from(set).join(sep)] *)
Definition join (sep : string) (l : list string) : string := String.concat sep l.

(** [hay.includes(needle)] *)
Fixpoint includes (needle hay : string) : bool :=
  String.prefix needle hay ||
  match hay with
  | EmptyString => false
  | String _ rest => includes needle rest
  end.

(** The characters of a string, as one-character strings. *)
Fixpoint chars (s : string) : list string :=
  match s with
  | EmptyString => []
  | String c rest => String c EmptyString :: chars rest
  end.

(** The own enumerable string-keyed properties that [Object.assign] reads
    from a source: the properties of an object, the elements of an array under
    their indices, the characters of a string under theirs; [undefined] and
    [null] are skipped and the other primitives have none. *)
Definition own_enumerable (source : value) : gmap string value :=
  match source with
  | VObject props => props
  | VArray items => list_to_map (imap (fun i x => (pretty i, x)) items)
  | VString s => list_to_map (imap (fun i c => (pretty i, VString c)) (chars s))
  | _ => ∅
  end.

(** A constructor function, identified by its name. *)
Inductive class : Type := Class (name : string).

(** What [Object.getPrototypeOf] of an instance may be: the [prototype] of the
    class it was created from, or a value installed afterwards through the
    [__proto__] setter. *)
Inductive proto : Type :=
  | prototype_of (c : class)
  | proto_value (v : value).

(** An object created with [Object.create]: its prototype and its own
    properties. *)
Record instance : Type := mkInstance {
  prototype : proto;
  own : gmap string value
}.

Definition Object_create (p : class) : instance :=
  {| prototype := prototype_of p; own := ∅ |}.

(** Does [instance.__proto__] still reach the accessor of [Object.prototype]?
    It does through the prototype of a class and through a parsed object or
    array, unless that object has an own property of this name; it does not
    once the prototype is [null]. *)
Definition reaches_proto_accessor (p : proto) : bool :=
  match p with
  | prototype_of _ => true
  | proto_value VNull => false
  | proto_value (VObject props) =>
      match props !! "__proto__" with
      | None => true
      | Some _ => false
      end
  | proto_value _ => true
  end.

(** [target[key] = v] on an instance, which has no accessor of its own.
    Every key but [__proto__] becomes an own data property.  [__proto__] goes
    to the accessor of [Object.prototype] when the prototype chain reaches it:
    the setter replaces the prototype when [v] is an object or [null] and
    does nothing otherwise. *)
Definition set_property (key : string) (v : value) (target : instance) : instance :=
  if bool_decide (key = "__proto__") && reaches_proto_accessor (prototype target) then
    match v with
    | VNull | VArray _ | VObject _ => {| prototype := proto_value v; own := own target |}
    | _ => target
    end
  else {| prototype := prototype target; own := <[key := v]> (own target) |}.

(** [Object.assign(target, source)] *)
Definition Object_assign (target : instance) (source : value) : instance :=
  map_fold set_property target (own_enumerable source).

(** What the setter of [__proto__] leaves as the prototype of a fresh
    instance of [c] once the properties [props] have been assigned. *)
Definition prototype_after (c : class) (props : gmap string value) : proto :=
  match props !! "__proto__" with
  | Some (VNull as v) | Some (VArray _ as v) | Some (VObject _ as v) => proto_value v
  | _ => prototype_of c
  end.

(** Is [key] a canonical array index, and which? *)
Definition digit_of (c : ascii) : option nat :=
  let n := nat_of_ascii c in
  if ((48 <=? n) && (n <=? 57))%nat then Some (n - 48)%nat else None.

Fixpoint digits_value (acc : nat) (s : string) : option nat :=
  match s with
  | EmptyString => Some acc
  | String c rest =>
      match digit_of c with
      | Some d => digits_value (10 * acc + d)%nat rest
      | None => None
      end
  end.

Definition array_index (key : string) : option nat :=
  match key with
  | EmptyString => None
  | String "0"%char EmptyString => Some 0
  | String "0"%char _ => None
  | _ => digits_value 0 key
  end.

(** [record.key], for a key that the standard prototypes do not define
    (as [sentiment] and [urgency]) and that is not [length].  Reading a
    property of [undefined] or [null] throws. *)
Definition Get (record : value) (key : string) : outcome value :=
  match record with
  | VUndefined | VNull =>
      Throw (TypeError ("Cannot read properties of " ++
                        (if record is VNull then "null" else "undefined") ++
                        " (reading '" ++ key ++ "')"))
  | VObject props => Return (default VUndefined (props !! key))
  | VArray items =>
      Return (match array_index key with
              | Some i => default VUndefined (items !! i)
              | None => VUndefined
              end)
  | VString s =>
      Return (match array_index key with
              | Some i => default VUndefined (VString <$> chars s !! i)
              | None => VUndefined
              end)
  | VBool _ | VNumber _ => Return VUndefined
  end.

(** [`${error}`]: [Error.prototype.toString] gives the name, a colon and the
    message; Zod overrides it to print the issues.  The rendering of the
    issues is schematic (Zod prints them as JSON). *)
Definition String_of_exn (error : exn) : string :=
  let named name msg := if decide (msg = "") then name else name ++ ": " ++ msg in
  match error with
  | Error msg => named "Error" msg
  | SyntaxError msg => named "SyntaxError" msg
  | TypeError msg => named "TypeError" msg
  | ZodErr e => join "; " (message <$> issues e)
  end.

(** ** The fragment of Zod the schema is written in

    [z.enum(values, { message })] accepts exactly the strings listed and
    reports anything else, an absent field included, with the given message.
    [z.object(shape)] accepts an object that is neither [null] nor an array,
    checks every field of the shape, gathers the issues of all of them with
    the field name put in front of their paths, and on success returns a fresh
    object holding the fields of the shape and no other.  This is the
    library's documented behaviour, not code of the repository; the text it
    gives for an input that is not an object is the library's default, and no
    property below depends on it. *)

Inductive ZodType : Type :=
  | z_enum (values : list string) (params_message : string)
  | z_object (shape : list (string * ZodType)).

Definition received (input : value) : string :=
  match input with
  | VNull => "null"
  | VArray _ => "array"
  | _ => typeof input
  end.

Definition add_to_path (key : string) (issue : ZodIssue) : ZodIssue :=
  {| path := key :: path issue; message := message issue |}.

(** One pass of a schema over an input: the issues found and, when there are
    none, the parsed output (the second component means nothing otherwise). *)
Fixpoint run (schema : ZodType) (input : value) : list ZodIssue * value :=
  match schema with
  | z_enum values params_message =>
      if Set_has values input then ([], input)
      else ([{| path := []; message := params_message |}], input)
  | z_object shape =>
      match input with
      | VObject props =>
          let fields :=
            (fix fields (shape : list (string * ZodType))
               : list ZodIssue * gmap string value :=
               match shape with
               | [] => ([], ∅)
               | (key, field) :: rest =>
                   let r := run field (default VUndefined (props !! key)) in
                   let rs := fields rest in
                   (((add_to_path key <$> r.1) ++ rs.1)%list, <[key := r.2]> rs.2)
               end) shape in
          (fields.1, VObject fields.2)
      | _ =>
          ([{| path := [];
               message := "Invalid input: expected object, received " ++ received input |}],
           input)
      end
  end.

(** The result of [schema.safeParse]. *)
Inductive SafeParseResult : Type :=
  | SafeParseSuccess (data : value)
  | SafeParseError (error : ZodError).

Definition safeParse (schema : ZodType) (input : value) : SafeParseResult :=
  match run schema input with
  | ([], data) => SafeParseSuccess data
  | (found, _) => SafeParseError {| issues := found |}
  end.

(** [schema.parse] throws what [safeParse] returns as a failure. *)
Definition parse (schema : ZodType) (input : value) : outcome value :=
  match safeParse schema input with
  | SafeParseSuccess data => Return data
  | SafeParseError error => Throw (ZodErr error)
  end.

(** ** src/sentimentObject.ts

    The two enumerations, as the lists of their members, and the class. *)

Definition Sentiment : list string := ["positive"; "negative"; "neutral"].
Definition Urgency : list string := ["high"; "medium"; "low"].

Definition sentimentObject : class := Class "sentimentObject".

(** ** src/sentimentObject-schema.ts *)

Definition sentimentObjectSchema : ZodType :=
  z_object
    [ ("sentiment",
       z_enum ["positive"; "negative"; "neutral"]
              "sentiment must be 'positive', 'negative', or 'neutral'");
      ("urgency",
       z_enum ["high"; "medium"; "low"]
              "urgency must be 'high', 'medium', or 'low'") ].

(** ** src/deserializer-validated.ts (the second part of
    src/sentimentObject-schema.ts in this tree): the validator interface and
    its example implementation *)

Record Validator : Type := mkValidator {
  validate : value -> outcome value
}.

Module SentimentObjectValidator.

Definition validSentiments : list string := ["positive"; "negative"; "neutral"].
Definition validUrgencies : list string := ["high"; "medium"; "low"].

Definition validate (obj : value) : outcome value :=
  if negb (String.eqb (typeof obj) "object") || is_null obj
  then Throw (Error "Input must be an object")
  else
    let record := obj in
    (* Validate sentiment *)
    let* sentiment := Get record "sentiment" in
    if negb (String.eqb (typeof sentiment) "string")
    then Throw (Error "sentiment must be a string")
    else if negb (Set_has validSentiments sentiment)
    then Throw (Error ("sentiment must be one of: " ++ join ", " validSentiments))
    else
      (* Validate urgency *)
      let* urgency := Get record "urgency" in
      if negb (String.eqb (typeof urgency) "string")
      then Throw (Error "urgency must be a string")
      else if negb (Set_has validUrgencies urgency)
      then Throw (Error ("urgency must be one of: " ++ join ", " validUrgencies))
      else Return (VObject (<["sentiment" := sentiment]> (<["urgency" := urgency]> ∅))).

Definition new : Validator := mkValidator validate.

End SentimentObjectValidator.

(** ** The deserializers

    [JSON.parse] belongs to the host: the deserializers are written, and
    their properties proved, for an arbitrary one.  [JSON.parse] below is a
    reference implementation to run them with. *)

Section Deserializers.

Variable JSON_parse : string -> outcome value.

(** [typeof jsonObject === 'string' ? JSON.parse(jsonObject) : jsonObject] *)
Definition parse_if_string (jsonObject : value) : outcome value :=
  match jsonObject with
  | VString text => JSON_parse text
  | _ => Return jsonObject
  end.

(** *** src/deserializer.ts *)

Definition deserialize (jsonObject : value) (classType : class) : outcome instance :=
  (* Parse JSON string if needed *)
  let* obj := parse_if_string jsonObject in
  (* Create a new instance of the class *)
  let instance := Object_create classType in
  (* Copy all properties from the JSON object to the instance *)
  Return (Object_assign instance obj).

Definition deserializeArray (jsonArray : value) (classType : class)
  : outcome (list instance) :=
  let* arr := parse_if_string jsonArray in
  match arr with
  | VArray items => Array_map (fun item => deserialize item classType) items
  | _ => Throw (Error "Input must be an array")
  end.

(** *** src/deserializer-validated.ts, continued *)

Definition deserializeWithValidation
  (jsonObject : value) (classType : class) (validator : Validator) : outcome instance :=
  let* obj := parse_if_string jsonObject in
  (* Validate the object *)
  let* validatedObj := validate validator obj in
  let instance := Object_create classType in
  Return (Object_assign instance validatedObj).

(** *** src/deserializer-zod.ts *)

Definition deserializeWithZod
  (jsonObject : value) (classType : class) (schema : ZodType) : outcome instance :=
  let* obj := parse_if_string jsonObject in
  (* This will throw a ZodError if validation fails *)
  let* validatedObj := parse schema obj in
  let instance := Object_create classType in
  Return (Object_assign instance validatedObj).

Definition deserializeArrayWithZod
  (jsonArray : value) (classType : class) (schema : ZodType) : outcome (list instance) :=
  let* arr := parse_if_string jsonArray in
  match arr with
  | VArray items => Array_map (fun item => deserializeWithZod item classType schema) items
  | _ => Throw (Error "Input must be an array")
  end.

(** [{ success: true; data: T } | { success: false; error: z.ZodError }] *)
Inductive SafeResult : Type :=
  | Success (data : instance)
  | Failure (error : ZodError).

Definition deserializeWithZodSafe
  (jsonObject : value) (classType : class) (schema : ZodType) : outcome SafeResult :=
  try_catch
    (let* obj := parse_if_string jsonObject in
     (* Use safeParse instead of parse - doesn't throw *)
     match safeParse schema obj with
     | SafeParseError error => Return (Failure error)
     | SafeParseSuccess data =>
         let instance := Object_create classType in
         Return (Success (Object_assign instance data))
     end)
    (fun error =>
       (* Handle JSON parse errors *)
       Throw (Error ("Failed to parse JSON: " ++ String_of_exn error))).

End Deserializers.

(** ** A reference [JSON.parse]

    The grammar of ECMA-404 over Rocq strings: objects, arrays, strings with
    their escapes, numbers (kept as lexemes), [true], [false], [null] and
    insignificant white space.  A repeated key keeps its last value.  The text
    of the [SyntaxError] is the engine's own and is not modelled. *)

Module JSON.

Definition dquote : ascii := ascii_of_nat 34.
Definition backslash : ascii := ascii_of_nat 92.

Definition is_ws (c : ascii) : bool :=
  let n := nat_of_ascii c in
  ((n =? 32) || (n =? 9) || (n =? 10) || (n =? 13))%nat.

Fixpoint skip_ws (s : string) : string :=
  match s with
  | String c rest => if is_ws c then skip_ws rest else s
  | EmptyString => s
  end.

Definition hex_of (c : ascii) : option nat :=
  let n := nat_of_ascii c in
  if ((48 <=? n) && (n <=? 57))%nat then Some (n - 48)%nat
  else if ((65 <=? n) && (n <=? 70))%nat then Some (n - 55)%nat
  else if ((97 <=? n) && (n <=? 102))%nat then Some (n - 87)%nat
  else None.

(** The UTF-8 encoding of a code unit given by a [\u] escape. *)
Definition utf8 (n : nat) : string :=
  let byte k := ascii_of_nat k in
  if (n <? 128)%nat then String (byte n) ""
  else if (n <? 2048)%nat then
    String (byte (192 + n / 64)) (String (byte (128 + n mod 64)) "")
  else
    String (byte (224 + n / 4096))
      (String (byte (128 + (n / 64) mod 64)) (String (byte (128 + n mod 64)) "")).

Definition unescape (c : ascii) : option ascii :=
  let n := nat_of_ascii c in
  if (n =? 34)%nat then Some dquote
  else if (n =? 92)%nat then Some backslash
  else if (n =? 47)%nat then Some "/"%char
  else if (n =? 98)%nat then Some (ascii_of_nat 8)
  else if (n =? 102)%nat then Some (ascii_of_nat 12)
  else if (n =? 110)%nat then Some (ascii_of_nat 10)
  else if (n =? 114)%nat then Some (ascii_of_nat 13)
  else if (n =? 116)%nat then Some (ascii_of_nat 9)
  else None.

(** The characters of a string literal after its opening quote: the decoded
    string and the text after the closing quote. *)
Fixpoint string_body (s : string) : option (string * string) :=
  match s with
  | EmptyString => None
  | String c rest =>
      if Ascii.eqb c dquote then Some ("", rest)
      else if (nat_of_ascii c <? 32)%nat then None
      else if Ascii.eqb c backslash then
        match rest with
        | EmptyString => None
        | String e rest1 =>
            if Ascii.eqb e "u"%char then
              match rest1 with
              | String h1 (String h2 (String h3 (String h4 rest2))) =>
                  match hex_of h1, hex_of h2, hex_of h3, hex_of h4 with
                  | Some d1, Some d2, Some d3, Some d4 =>
                      match string_body rest2 with
                      | Some (decoded, after) =>
                          Some (utf8 (((d1 * 16 + d2) * 16 + d3) * 16 + d4) ++ decoded, after)
                      | None => None
                      end
                  | _, _, _, _ => None
                  end
              | _ => None
              end
            else
              match unescape e with
              | Some x =>
                  match string_body rest1 with
                  | Some (decoded, after) => Some (String x decoded, after)
                  | None => None
                  end
              | None => None
              end
        end
      else
        match string_body rest with
        | Some (decoded, after) => Some (String c decoded, after)
        | None => None
        end
  end.

Definition is_digit (c : ascii) : bool :=
  let n := nat_of_ascii c in ((48 <=? n) && (n <=? 57))%nat.

(** The longest prefix of digits, and what follows it. *)
Fixpoint digits (s : string) : string * string :=
  match s with
  | String c rest =>
      if is_digit c then let r := digits rest in (String c r.1, r.2) else ("", s)
  | EmptyString => ("", s)
  end.

Definition starts (c : ascii) (s : string) : option string :=
  match s with
  | String x rest => if Ascii.eqb x c then Some rest else None
  | EmptyString => None
  end.

(** [-? int frac? exp?] *)
Definition number (s : string) : option (string * string) :=
  let '(sign, s) := match starts "-" s with Some r => ("-", r) | None => ("", s) end in
  let '(int, s) := digits s in
  if String.eqb int "" || (String.prefix "0" int && negb (String.eqb int "0")) then None
  else
    let frac :=
      match starts "." s with
      | Some r => let '(ds, r) := digits r in
                  if String.eqb ds "" then None else Some ("." ++ ds, r)
      | None => Some ("", s)
      end in
    match frac with
    | None => None
    | Some (frac, s) =>
        let e := match starts "e" s, starts "E" s with
                 | Some r, _ => Some ("e", r)
                 | _, Some r => Some ("E", r)
                 | _, _ => None
                 end in
        match e with
        | None => Some (sign ++ int ++ frac, s)
        | Some (e, r) =>
            let '(esign, r) :=
              match starts "+" r, starts "-" r with
              | Some r', _ => ("+", r')
              | _, Some r' => ("-", r')
              | _, _ => ("", r)
              end in
            let '(ds, r) := digits r in
            if String.eqb ds "" then None
            else Some (sign ++ int ++ frac ++ e ++ esign ++ ds, r)
        end
    end.

Definition literal (s : string) : option (value * string) :=
  if String.prefix "true" s then Some (VBool true, String.substring 4 (String.length s - 4) s)
  else if String.prefix "false" s then Some (VBool false, String.substring 5 (String.length s - 5) s)
  else if String.prefix "null" s then Some (VNull, String.substring 4 (String.length s - 4) s)
  else match number s with
       | Some (lexeme, rest) => Some (VNumber lexeme, rest)
       | None => None
       end.

(** A value, the members of an object after its opening brace, the elements
    of an array after its opening bracket; each call consumes a character
    before it recurses, so a fuel above the length of the text is enough. *)
Fixpoint element (fuel : nat) (s : string) : option (value * string) :=
  match fuel with
  | O => None
  | S fuel =>
      match skip_ws s with
      | EmptyString => None
      | String c rest as s' =>
          if Ascii.eqb c "{"%char then
            match starts "}" (skip_ws rest) with
            | Some after => Some (VObject ∅, after)
            | None => members fuel rest ∅
            end
          else if Ascii.eqb c "["%char then
            match starts "]" (skip_ws rest) with
            | Some after => Some (VArray [], after)
            | None => elements fuel rest []
            end
          else if Ascii.eqb c dquote then
            match string_body rest with
            | Some (str, after) => Some (VString str, after)
            | None => None
            end
          else literal s'
      end
  end
with members (fuel : nat) (s : string) (acc : gmap string value) : option (value * string) :=
  match fuel with
  | O => None
  | S fuel =>
      match starts dquote (skip_ws s) with
      | None => None
      | Some s1 =>
          match string_body s1 with
          | None => None
          | Some (key, s2) =>
              match starts ":" (skip_ws s2) with
              | None => None
              | Some s3 =>
                  match element fuel s3 with
                  | None => None
                  | Some (v, s4) =>
                      match starts "," (skip_ws s4), starts "}" (skip_ws s4) with
                      | Some s5, _ => members fuel s5 (<[key := v]> acc)
                      | _, Some s5 => Some (VObject (<[key := v]> acc), s5)
                      | _, _ => None
                      end
                  end
              end
          end
      end
  end
with elements (fuel : nat) (s : string) (acc : list value) : option (value * string) :=
  match fuel with
  | O => None
  | S fuel =>
      match element fuel s with
      | None => None
      | Some (v, s1) =>
          match starts "," (skip_ws s1), starts "]" (skip_ws s1) with
          | Some s2, _ => elements fuel s2 (acc ++ [v])%list
          | _, Some s2 => Some (VArray (acc ++ [v])%list, s2)
          | _, _ => None
          end
      end
  end.

Definition parse (text : string) : outcome value :=
  match element (S (String.length text)) text with
  | Some (v, rest) =>
      if String.eqb (skip_ws rest) "" then Return v
      else Throw (SyntaxError "Unexpected non-whitespace character after JSON")
  | None => Throw (SyntaxError "Unexpected token in JSON")
  end.

(** [s] between double quotes. *)
Definition quoted (s : string) : string := String dquote (s ++ String dquote "").

End JSON.

(** ** Vocabulary of the specification *)

(** Is the field there, a string, and a member of its enumeration? *)
Definition in_domain (domain : list string) (field : option value) : bool :=
  match field with
  | Some (VString s) => bool_decide (s ∈ domain)
  | _ => false
  end.

(** A valid mapping: both recognized fields carry in-domain values. *)
Definition conforms (m : gmap string value) : bool :=
  in_domain Sentiment (m !! "sentiment") && in_domain Urgency (m !! "urgency").

(** The mapping contains exactly the recognized fields. *)
Definition exactly_recognized (m : gmap string value) : Prop :=
  dom m = {[ "sentiment"; "urgency" ]}.

(** The recognized fields of a mapping, and nothing else. *)
Definition recognized (m : gmap string value) : gmap string value :=
  <["sentiment" := default VUndefined (m !! "sentiment")]>
    (<["urgency" := default VUndefined (m !! "urgency")]> ∅).

(** A message names a domain when every member of the domain occurs in it. *)
Definition names_domain (domain : list string) (msg : string) : bool :=
  forallb (fun member => includes member msg) domain.

(** The violations of the hand-written validator, in the words of the
    specification: per field presence, then primitive type, then domain. *)
Inductive violation : Type :=
  | Absent (field : string)
  | NotAString (field : string)
  | OutsideDomain (field : string) (domain : list string).

Definition check_field (field : string) (domain : list string)
  (m : gmap string value) : option violation :=
  match m !! field with
  | None => Some (Absent field)
  | Some (VString s) =>
      if bool_decide (s ∈ domain) then None else Some (OutsideDomain field domain)
  | Some _ => Some (NotAString field)
  end.

(** Fields are checked in declaration order, and the first violation wins. *)
Definition first_violation (m : gmap string value) : option violation :=
  match check_field "sentiment" Sentiment m with
  | Some v => Some v
  | None => check_field "urgency" Urgency m
  end.

Definition message_of (v : violation) : string :=
  match v with
  | Absent field | NotAString field => field ++ " must be a string"
  | OutsideDomain field domain => field ++ " must be one of: " ++ join ", " domain
  end.

(** The issues the schema path is expected to aggregate: one per recognized
    field whose value is not in its domain, in declaration order. *)
Definition sentiment_issue : ZodIssue :=
  {| path := ["sentiment"];
     message := "sentiment must be 'positive', 'negative', or 'neutral'" |}.
Definition urgency_issue : ZodIssue :=
  {| path := ["urgency"];
     message := "urgency must be 'high', 'medium', or 'low'" |}.

Definition violations (m : gmap string value) : list ZodIssue :=
  ((if in_domain Sentiment (m !! "sentiment") then [] else [sentiment_issue]) ++
   (if in_domain Urgency (m !! "urgency") then [] else [urgency_issue]))%list.

(** ** Inputs of the test suite *)

Definition positive_high : gmap string value :=
  {[ "sentiment" := VString "positive"; "urgency" := VString "high" ]}.

Definition positive_high_extra : gmap string value :=
  <["extra" := VString "value"]> positive_high.

Definition happy_high : gmap string value :=
  {[ "sentiment" := VString "happy"; "urgency" := VString "high" ]}.

Definition urgency_only : gmap string value := {[ "urgency" := VString "high" ]}.

Definition invalid_both : gmap string value :=
  {[ "sentiment" := VString "invalid"; "urgency" := VString "also-invalid" ]}.

(** [{"sentiment": "negative", "urgency": "low"}], as text *)
Definition negative_low_text : string :=
  "{" ++ JSON.quoted "sentiment" ++ ": " ++ JSON.quoted "negative" ++ ", " ++
  JSON.quoted "urgency" ++ ": " ++ JSON.quoted "low" ++ "}".

Definition negative_low : gmap string value :=
  {[ "sentiment" := VString "negative"; "urgency" := VString "low" ]}.

Definition invalid_json : string := "{invalid json}".

Definition positive_high_bad_medium : list value :=
  [ VObject positive_high;
    VObject {[ "sentiment" := VString "bad"; "urgency" := VString "medium" ]} ].

(** [{"__proto__": {"x": 1}, "sentiment": "positive"}], as text *)
Definition proto_text : string :=
  "{" ++ JSON.quoted "__proto__" ++ ": {" ++ JSON.quoted "x" ++ ": 1}, " ++
  JSON.quoted "sentiment" ++ ": " ++ JSON.quoted "positive" ++ "}".

(** ** Further definitions

    The constructor of src/sentimentObject.ts, [instanceof], and the
    vocabulary of the properties that follow the claims. *)

(** [new sentimentObject(sentiment, urgency)]: a fresh object with the
    prototype of the class, then the two assignments of the constructor. *)
Definition new_sentimentObject (sentiment urgency : value) : instance :=
  let this := Object_create sentimentObject in
  let this := set_property "sentiment" sentiment this in
  let this := set_property "urgency" urgency this in
  this.

Definition same_class (c c' : class) : bool :=
  match c, c' with
  | Class name, Class name' => String.eqb name name'
  end.

(** [inst instanceof c]: the prototype chain of [inst] contains [c.prototype].
    The chain of an instance whose prototype was replaced by a parsed value
    contains the prototype of no class. *)
Definition instanceof (inst : instance) (c : class) : bool :=
  match prototype inst with
  | prototype_of c' => same_class c' c
  | proto_value _ => false
  end.

(** Does assigning this value to [__proto__] replace the prototype? *)
Definition replaces_prototype (field : option value) : bool :=
  match field with
  | Some VNull | Some (VArray _) | Some (VObject _) => true
  | _ => false
  end.

(** The five [throw new Error(...)] of [SentimentObjectValidator.validate],
    in the order of the source. *)
Definition validate_messages : list string :=
  [ "Input must be an object";
    "sentiment must be a string";
    "sentiment must be one of: positive, negative, neutral";
    "urgency must be a string";
    "urgency must be one of: high, medium, low" ].

(** The field a violation is about. *)
Definition violation_field (v : violation) : string :=
  match v with
  | Absent field | NotAString field | OutsideDomain field _ => field
  end.

(** The values from which [Object.assign] has nothing to copy: [undefined],
    [null], booleans and numbers. *)
Definition without_properties (v : value) : bool :=
  match v with
  | VUndefined | VNull | VBool _ | VNumber _ => true
  | _ => false
  end.

(** * Properties *)

(** ** The runtime fragment *)

Lemma typeof_string (v : value) :
  String.eqb (typeof v) "string" = true <-> exists s, v = VString s.
Proof.
  split.
  - destruct v; simpl; try discriminate. eauto.
  - intros [s ->]. reflexivity.
Qed.

Lemma Return_inj {A} (a b : A) : Return a = Return b -> a = b.
Proof. intros H. injection H as ->. reflexivity. Qed.

Lemma bind_Return {A B} (c : outcome A) (k : A -> outcome B) (b : B) :
  bind c k = Return b -> exists a, c = Return a /\ k a = Return b.
Proof. destruct c as [a|e]; simpl; [eauto | discriminate]. Qed.

(** [Object.assign] on a fresh instance: every property of the source but
    [__proto__] becomes an own property, and [__proto__] goes to the setter. *)
Lemma Object_assign_fresh (c : class) (source : value) :
  Object_assign (Object_create c) source =
  {| prototype := prototype_after c (own_enumerable source);
     own := delete "__proto__" (own_enumerable source) |}.
Proof.
  unfold Object_assign.
  generalize (own_enumerable source) as props.
  refine (map_fold_weak_ind
            (fun r props => r = {| prototype := prototype_after c props;
                                   own := delete "__proto__" props |}) _ _ _ _).
  - unfold prototype_after. rewrite lookup_empty, delete_empty. reflexivity.
  - intros key v props r Hfresh ->.
    unfold set_property, prototype_after; simpl.
    destruct (decide (key = "__proto__")) as [->|Hne].
    + rewrite Hfresh, lookup_insert_eq, delete_insert_eq. simpl.
      destruct v; reflexivity.
    + rewrite bool_decide_eq_false_2 by done. simpl.
      rewrite lookup_insert_ne, delete_insert_ne by done. reflexivity.
Qed.

Lemma Object_assign_plain (c : class) (props : gmap string value) :
  props !! "__proto__" = None ->
  Object_assign (Object_create c) (VObject props) =
  {| prototype := prototype_of c; own := props |}.
Proof.
  intros Hnone. rewrite Object_assign_fresh; simpl.
  unfold prototype_after. rewrite Hnone, delete_id by done. reflexivity.
Qed.

(** ** The hand-written validator *)

Lemma Set_has_in_domain (domain : list string) (field : option value) :
  Set_has domain (default VUndefined field) = in_domain domain field.
Proof. destruct field as [[]|]; reflexivity. Qed.

(** The validator against the specification's order of checks. *)
Lemma validate_object (m : gmap string value) :
  SentimentObjectValidator.validate (VObject m) =
  match first_violation m with
  | Some v => Throw (Error (message_of v))
  | None => Return (VObject (recognized m))
  end.
Proof.
  unfold SentimentObjectValidator.validate, first_violation, check_field, recognized.
  simpl.
  destruct (m !! "sentiment") as [[ | | | |s| | ]|]; simpl; try reflexivity.
  change SentimentObjectValidator.validSentiments with Sentiment.
  destruct (bool_decide (s ∈ Sentiment)); simpl; [|reflexivity].
  destruct (m !! "urgency") as [[ | | | |u| | ]|]; simpl; try reflexivity.
  change SentimentObjectValidator.validUrgencies with Urgency.
  destruct (bool_decide (u ∈ Urgency)); reflexivity.
Qed.

Lemma conforms_fields (m : gmap string value) :
  conforms m = true ->
  exists s u, m !! "sentiment" = Some (VString s) /\ s ∈ Sentiment /\
              m !! "urgency" = Some (VString u) /\ u ∈ Urgency.
Proof.
  unfold conforms, in_domain. intros H.
  apply andb_prop in H as [Hs Hu].
  destruct (m !! "sentiment") as [[ | | | |s| | ]|]; try discriminate.
  destruct (m !! "urgency") as [[ | | | |u| | ]|]; try discriminate.
  apply bool_decide_eq_true in Hs, Hu. eauto 10.
Qed.

Lemma conforms_no_violation (m : gmap string value) :
  conforms m = true -> first_violation m = None.
Proof.
  intros (s & u & Hs & Hsd & Hu & Hud)%conforms_fields.
  unfold first_violation, check_field. rewrite Hs, Hu.
  rewrite !bool_decide_eq_true_2 by done. reflexivity.
Qed.

Lemma validate_conforming (m : gmap string value) :
  conforms m = true ->
  SentimentObjectValidator.validate (VObject m) = Return (VObject (recognized m)).
Proof. intros H. rewrite validate_object, conforms_no_violation by done. reflexivity. Qed.

Lemma recognized_no_proto (m : gmap string value) : recognized m !! "__proto__" = None.
Proof. reflexivity. Qed.

(** A mapping with exactly the recognized fields is its own recognized part. *)
Lemma recognized_exact (m : gmap string value) :
  exactly_recognized m -> recognized m = m.
Proof.
  unfold exactly_recognized, recognized. intros Hdom.
  apply map_eq. intros key.
  assert (Hin : forall k, is_Some (m !! k) <-> k = "sentiment" \/ k = "urgency").
  { intros k. rewrite <- elem_of_dom, Hdom, elem_of_union, !elem_of_singleton. done. }
  destruct (decide (key = "sentiment")) as [->|Hs].
  - rewrite lookup_insert_eq.
    destruct (proj2 (Hin "sentiment")) as [v ->]; [by left | reflexivity].
  - rewrite lookup_insert_ne by done.
    destruct (decide (key = "urgency")) as [->|Hu].
    + rewrite lookup_insert_eq.
      destruct (proj2 (Hin "urgency")) as [v ->]; [by right | reflexivity].
    + rewrite lookup_insert_ne, lookup_empty by done.
      symmetry. apply eq_None_not_Some. rewrite Hin. tauto.
Qed.

Lemma exact_no_proto (m : gmap string value) :
  exactly_recognized m -> m !! "__proto__" = None.
Proof.
  unfold exactly_recognized. intros Hdom.
  apply not_elem_of_dom. rewrite Hdom, elem_of_union, !elem_of_singleton.
  intros [?|?]; discriminate.
Qed.

(** ** The schema *)

Lemma run_sentimentObjectSchema (m : gmap string value) :
  run sentimentObjectSchema (VObject m) = (violations m, VObject (recognized m)).
Proof.
  unfold sentimentObjectSchema, violations, recognized. simpl.
  rewrite !Set_has_in_domain.
  change ["positive"; "negative"; "neutral"] with Sentiment.
  change ["high"; "medium"; "low"] with Urgency.
  destruct (in_domain Sentiment (m !! "sentiment")),
           (in_domain Urgency (m !! "urgency")); reflexivity.
Qed.

Lemma violations_conforms (m : gmap string value) :
  violations m = [] <-> conforms m = true.
Proof.
  unfold violations, conforms.
  destruct (in_domain Sentiment (m !! "sentiment")),
           (in_domain Urgency (m !! "urgency")); simpl; split; congruence.
Qed.

Lemma elem_of_violations (m : gmap string value) (issue : ZodIssue) :
  issue ∈ violations m <->
  (issue = sentiment_issue /\ in_domain Sentiment (m !! "sentiment") = false) \/
  (issue = urgency_issue /\ in_domain Urgency (m !! "urgency") = false).
Proof.
  unfold violations.
  destruct (in_domain Sentiment (m !! "sentiment")),
           (in_domain Urgency (m !! "urgency")); simpl;
    rewrite ?elem_of_cons, ?elem_of_nil; intuition congruence.
Qed.

Lemma safeParse_sentimentObjectSchema (m : gmap string value) :
  safeParse sentimentObjectSchema (VObject m) =
  if conforms m then SafeParseSuccess (VObject (recognized m))
  else SafeParseError {| issues := violations m |}.
Proof.
  unfold safeParse. rewrite run_sentimentObjectSchema.
  destruct (conforms m) eqn:Hc.
  - apply violations_conforms in Hc. rewrite Hc. reflexivity.
  - destruct (violations m) eqn:Hv; [|reflexivity].
    apply violations_conforms in Hv. congruence.
Qed.

(** ** The single-object forms on valid mappings *)

Section SingleObject.

Variable JSON_parse : string -> outcome value.
Variable classType : class.

Lemma deserialize_object (m : gmap string value) :
  deserialize JSON_parse (VObject m) classType =
  Return {| prototype := prototype_after classType m; own := delete "__proto__" m |}.
Proof. unfold deserialize. simpl. rewrite Object_assign_fresh. reflexivity. Qed.

Lemma deserializeWithValidation_object (m : gmap string value) :
  conforms m = true ->
  deserializeWithValidation JSON_parse (VObject m) classType SentimentObjectValidator.new =
  Return {| prototype := prototype_of classType; own := recognized m |}.
Proof.
  intros Hc. unfold deserializeWithValidation. simpl.
  rewrite validate_conforming by done. simpl.
  rewrite Object_assign_plain by apply recognized_no_proto. reflexivity.
Qed.

Lemma deserializeWithZod_object (m : gmap string value) :
  conforms m = true ->
  deserializeWithZod JSON_parse (VObject m) classType sentimentObjectSchema =
  Return {| prototype := prototype_of classType; own := recognized m |}.
Proof.
  intros Hc. unfold deserializeWithZod, parse.
  cbn [parse_if_string bind].
  rewrite safeParse_sentimentObjectSchema, Hc. cbn [bind].
  rewrite Object_assign_plain by apply recognized_no_proto. reflexivity.
Qed.

Lemma deserializeWithZod_object_invalid (m : gmap string value) :
  conforms m = false ->
  deserializeWithZod JSON_parse (VObject m) classType sentimentObjectSchema =
  Throw (ZodErr {| issues := violations m |}).
Proof.
  intros Hc. unfold deserializeWithZod, parse.
  cbn [parse_if_string bind].
  rewrite safeParse_sentimentObjectSchema, Hc. reflexivity.
Qed.

(** C1. A mapping with exactly the fields [sentiment] and [urgency], both in
    their enumerations, is returned by each of the three single-object forms
    as an instance of the class whose fields are the mapping's: in
    particular [sentiment] and [urgency] have the input's values. *)
Theorem single_object_fields_equal (m : gmap string value) (s u : string) :
  exactly_recognized m ->
  m !! "sentiment" = Some (VString s) -> s ∈ Sentiment ->
  m !! "urgency" = Some (VString u) -> u ∈ Urgency ->
  exists inst,
    deserialize JSON_parse (VObject m) classType = Return inst /\
    deserializeWithValidation JSON_parse (VObject m) classType
      SentimentObjectValidator.new = Return inst /\
    deserializeWithZod JSON_parse (VObject m) classType sentimentObjectSchema
      = Return inst /\
    prototype inst = prototype_of classType /\
    own inst = m /\
    own inst !! "sentiment" = Some (VString s) /\
    own inst !! "urgency" = Some (VString u).
Proof.
  intros Hexact Hs Hsd Hu Hud.
  assert (Hc : conforms m = true).
  { unfold conforms, in_domain. rewrite Hs, Hu.
    rewrite !bool_decide_eq_true_2 by done. reflexivity. }
  exists {| prototype := prototype_of classType; own := m |}.
  repeat split; try assumption.
  - rewrite deserialize_object. unfold prototype_after.
    rewrite (exact_no_proto m Hexact), delete_id by (by apply exact_no_proto).
    reflexivity.
  - rewrite deserializeWithValidation_object, recognized_exact by done. reflexivity.
  - rewrite deserializeWithZod_object, recognized_exact by done. reflexivity.
Qed.

End SingleObject.

(** The mapping of the first test of each strategy. *)
Lemma single_object_fields_equal_witness :
  let m : gmap string value :=
    {[ "sentiment" := VString "positive"; "urgency" := VString "high" ]} in
  exists inst,
    deserialize JSON.parse (VObject m) sentimentObject = Return inst /\
    deserializeWithValidation JSON.parse (VObject m) sentimentObject
      SentimentObjectValidator.new = Return inst /\
    deserializeWithZod JSON.parse (VObject m) sentimentObject sentimentObjectSchema
      = Return inst /\
    prototype inst = prototype_of sentimentObject /\
    own inst = m /\
    own inst !! "sentiment" = Some (VString "positive") /\
    own inst !! "urgency" = Some (VString "high").
Proof.
  intros m.
  apply (single_object_fields_equal JSON.parse sentimentObject m "positive" "high").
  - reflexivity.
  - reflexivity.
  - refine (bool_decide_unpack _ _). vm_compute. exact I.
  - reflexivity.
  - refine (bool_decide_unpack _ _). vm_compute. exact I.
Defined.

(** ** Extra fields *)

Lemma recognized_lookup (m : gmap string value) (key : string) :
  conforms m = true ->
  recognized m !! key =
  if decide (key = "sentiment" \/ key = "urgency") then m !! key else None.
Proof.
  intros (s & u & Hs & _ & Hu & _)%conforms_fields.
  unfold recognized. rewrite Hs, Hu. simpl.
  destruct (decide (key = "sentiment")) as [->|Hns].
  - rewrite lookup_insert_eq, decide_True by (by left). by rewrite Hs.
  - rewrite lookup_insert_ne by done.
    destruct (decide (key = "urgency")) as [->|Hnu].
    + rewrite lookup_insert_eq, decide_True by (by right). by rewrite Hu.
    + rewrite lookup_insert_ne, lookup_empty by done.
      rewrite decide_False by tauto. reflexivity.
Qed.

(** C2, as stated, fails on the hand-written path: the validator returns a
    fresh object with [sentiment] and [urgency] only, so the field [extra] of
    the source does not reach the instance. *)
Lemma validation_path_drops_extra_counterexample :
  ~ exists inst,
      deserializeWithValidation JSON.parse (VObject positive_high_extra) sentimentObject
        SentimentObjectValidator.new = Return inst /\
      own inst !! "extra" = positive_high_extra !! "extra".
Proof.
  intros (inst & Hret & Hextra).
  rewrite deserializeWithValidation_object in Hret by reflexivity.
  injection Hret as <-. vm_compute in Hextra. discriminate.
Qed.

(** C2, amended.  For a mapping with in-domain [sentiment] and [urgency] and
    any further fields, the unchecked path returns an instance that carries
    every field of the source but [__proto__] (which assignment hands to the
    prototype setter), and the hand-written-validator path and the schema
    path both return an instance that carries [sentiment] and [urgency] and
    nothing else. *)
Theorem extra_fields (JSON_parse : string -> outcome value) (classType : class)
  (m : gmap string value) :
  conforms m = true ->
  (exists inst,
     deserialize JSON_parse (VObject m) classType = Return inst /\
     forall key, key <> "__proto__" -> own inst !! key = m !! key) /\
  (exists inst,
     deserializeWithValidation JSON_parse (VObject m) classType
       SentimentObjectValidator.new = Return inst /\
     forall key, own inst !! key =
       if decide (key = "sentiment" \/ key = "urgency") then m !! key else None) /\
  (exists inst,
     deserializeWithZod JSON_parse (VObject m) classType sentimentObjectSchema
       = Return inst /\
     forall key, own inst !! key =
       if decide (key = "sentiment" \/ key = "urgency") then m !! key else None).
Proof.
  intros Hc. repeat split.
  - eexists. split; [apply deserialize_object|].
    intros key Hkey. simpl. by rewrite lookup_delete_ne.
  - eexists. split; [by apply deserializeWithValidation_object|].
    intros key. simpl. by apply recognized_lookup.
  - eexists. split; [by apply deserializeWithZod_object|].
    intros key. simpl. by apply recognized_lookup.
Qed.

Lemma extra_fields_witness :
  conforms positive_high_extra = true /\
  (exists inst,
     deserialize JSON.parse (VObject positive_high_extra) sentimentObject = Return inst /\
     own inst !! "extra" = Some (VString "value")) /\
  (exists inst,
     deserializeWithValidation JSON.parse (VObject positive_high_extra) sentimentObject
       SentimentObjectValidator.new = Return inst /\
     own inst !! "extra" = None) /\
  (exists inst,
     deserializeWithZod JSON.parse (VObject positive_high_extra) sentimentObject
       sentimentObjectSchema = Return inst /\
     own inst !! "extra" = None).
Proof.
  split; [reflexivity|].
  destruct (extra_fields JSON.parse sentimentObject positive_high_extra eq_refl)
    as ((i1 & H1 & F1) & (i2 & H2 & F2) & (i3 & H3 & F3)).
  split; [|split].
  - exists i1. split; [exact H1|]. rewrite F1 by discriminate. reflexivity.
  - exists i2. split; [exact H2|]. rewrite F2. reflexivity.
  - exists i3. split; [exact H3|]. rewrite F3. reflexivity.
Defined.

(** ** Inputs that are not mappings *)

(** C3, as stated, fails on sequences: an array is an object to [typeof], so
    it passes the first test and is rejected by the check of [sentiment]. *)
Lemma validate_array_counterexample :
  SentimentObjectValidator.validate (VArray []) = Throw (Error "sentiment must be a string") /\
  SentimentObjectValidator.validate (VArray []) <> Throw (Error "Input must be an object").
Proof. split; [reflexivity | discriminate]. Qed.

(** C3, amended.  An input that is not a mapping is rejected with "Input must
    be an object", before any field is checked, when it is [null],
    [undefined] or a scalar; a sequence passes that test and is rejected with
    "sentiment must be a string". *)
Theorem validate_not_a_mapping (obj : value) :
  (forall m, obj <> VObject m) ->
  SentimentObjectValidator.validate obj =
  Throw (Error (if Array_isArray obj then "sentiment must be a string"
                else "Input must be an object")).
Proof.
  intros Hnot. destruct obj; try reflexivity.
  exfalso. by eapply Hnot.
Qed.

Lemma validate_not_a_mapping_witness :
  SentimentObjectValidator.validate VNull = Throw (Error "Input must be an object").
Proof. apply (validate_not_a_mapping VNull). discriminate. Defined.

(** ** The first violation *)

(** C4, as stated, fails on an absent field: the message for a field that is
    absent or not a string says so and does not name the domain. *)
Lemma validate_absent_field_counterexample :
  first_violation urgency_only = Some (Absent "sentiment") /\
  ~ exists msg,
      SentimentObjectValidator.validate (VObject urgency_only) = Throw (Error msg) /\
      names_domain Sentiment msg = true.
Proof.
  split; [reflexivity|].
  intros (msg & Hthrow & Hnames).
  vm_compute in Hthrow. injection Hthrow as <-.
  vm_compute in Hnames. discriminate.
Qed.

(** C4, amended.  On a mapping the validator raises exactly the first
    violation in the fixed order (sentiment presence, sentiment primitive
    type, sentiment domain, then the same for urgency) and returns the
    recognized fields when there is none; the message is "<field> must be a
    string" for an absent or non-string field and "<field> must be one of: "
    followed by the domain for a value outside it; for
    [{"sentiment":"happy","urgency":"high"}] the message contains
    "sentiment must be one of: positive, negative, neutral". *)
Theorem validate_first_violation (m : gmap string value) :
  SentimentObjectValidator.validate (VObject m) =
    match first_violation m with
    | Some v => Throw (Error (message_of v))
    | None => Return (VObject (recognized m))
    end /\
  names_domain Sentiment (message_of (OutsideDomain "sentiment" Sentiment)) = true /\
  names_domain Urgency (message_of (OutsideDomain "urgency" Urgency)) = true /\
  exists msg,
    SentimentObjectValidator.validate (VObject happy_high) = Throw (Error msg) /\
    includes "sentiment must be one of: positive, negative, neutral" msg = true.
Proof.
  split; [apply validate_object|].
  repeat split.
  exists "sentiment must be one of: positive, negative, neutral".
  split; reflexivity.
Qed.

(** ** The schema path aggregates *)

(** C5. On a mapping that does not conform, the throwing schema path raises
    one aggregate error that carries a violation for every recognized field
    whose value is not in its domain, and no other; when both fields are
    outside their domains it carries one violation per field.  Each violation
    has the field as its path and a message that names the field's domain. *)
Theorem schema_path_aggregates (JSON_parse : string -> outcome value)
  (classType : class) (m : gmap string value) :
  conforms m = false ->
  exists error,
    deserializeWithZod JSON_parse (VObject m) classType sentimentObjectSchema
      = Throw (ZodErr error) /\
    issues error <> [] /\
    (sentiment_issue ∈ issues error <-> in_domain Sentiment (m !! "sentiment") = false) /\
    (urgency_issue ∈ issues error <-> in_domain Urgency (m !! "urgency") = false) /\
    (forall issue, issue ∈ issues error -> issue = sentiment_issue \/ issue = urgency_issue) /\
    (in_domain Sentiment (m !! "sentiment") = false ->
     in_domain Urgency (m !! "urgency") = false ->
     issues error = [sentiment_issue; urgency_issue]) /\
    path sentiment_issue = ["sentiment"] /\
    names_domain Sentiment (message sentiment_issue) = true /\
    path urgency_issue = ["urgency"] /\
    names_domain Urgency (message urgency_issue) = true.
Proof.
  intros Hc. exists {| issues := violations m |}.
  split; [by apply deserializeWithZod_object_invalid|]. simpl.
  split.
  { intros Hnil%violations_conforms. congruence. }
  split.
  { rewrite elem_of_violations. split; [intros [[_ H]|[H _]]|]; [done|discriminate|tauto]. }
  split.
  { rewrite elem_of_violations. split; [intros [[H _]|[_ H]]|]; [discriminate|done|tauto]. }
  split.
  { intros issue [[-> _]|[-> _]]%elem_of_violations; tauto. }
  split; [|done].
  intros Hs Hu. unfold violations. rewrite Hs, Hu. reflexivity.
Qed.

Lemma schema_path_aggregates_witness :
  exists error,
    deserializeWithZod JSON.parse (VObject invalid_both) sentimentObject
      sentimentObjectSchema = Throw (ZodErr error) /\
    issues error = [sentiment_issue; urgency_issue].
Proof.
  destruct (schema_path_aggregates JSON.parse sentimentObject invalid_both eq_refl)
    as (error & Hthrow & _ & _ & _ & _ & Hboth & _).
  exists error. split; [exact Hthrow|].
  apply Hboth; reflexivity.
Defined.

(** ** The non-throwing schema form *)

Lemma prefix_app (p s : string) : String.prefix p (p ++ s) = true.
Proof.
  induction p as [|c p IH]; simpl.
  - by destruct s.
  - destruct (ascii_dec c c); [exact IH | congruence].
Qed.

(** C6. [deserializeWithZodSafe] returns a validation failure as data,
    [success: false] with the aggregate error; it raises for a string that
    [JSON.parse] rejects, with a message that begins "Failed to parse JSON";
    and it raises in no other case. *)
Theorem deserializeWithZodSafe_outcomes (JSON_parse : string -> outcome value)
  (classType : class) (schema : ZodType) :
  (forall input obj error,
     parse_if_string JSON_parse input = Return obj ->
     safeParse schema obj = SafeParseError error ->
     deserializeWithZodSafe JSON_parse input classType schema = Return (Failure error)) /\
  (forall text e,
     JSON_parse text = Throw e ->
     exists msg,
       deserializeWithZodSafe JSON_parse (VString text) classType schema
         = Throw (Error msg) /\
       String.prefix "Failed to parse JSON" msg = true) /\
  (forall input e,
     deserializeWithZodSafe JSON_parse input classType schema = Throw e ->
     exists text e', input = VString text /\ JSON_parse text = Throw e').
Proof.
  unfold deserializeWithZodSafe. repeat split.
  - intros input obj error Hdecoded Hfailed.
    rewrite Hdecoded. simpl. rewrite Hfailed. reflexivity.
  - intros text e Hparse. simpl. rewrite Hparse. simpl.
    eexists. split; [reflexivity|].
    exact (prefix_app "Failed to parse JSON" (": " ++ String_of_exn e)).
  - intros input e.
    destruct (parse_if_string JSON_parse input) as [obj|e'] eqn:Hparse; simpl.
    + destruct (safeParse schema obj); discriminate.
    + intros _. destruct input; try discriminate. eauto.
Qed.

Lemma deserializeWithZodSafe_outcomes_witness :
  (exists error,
     deserializeWithZodSafe JSON.parse (VObject happy_high) sentimentObject
       sentimentObjectSchema = Return (Failure error)) /\
  (exists msg,
     deserializeWithZodSafe JSON.parse (VString invalid_json) sentimentObject
       sentimentObjectSchema = Throw (Error msg) /\
     String.prefix "Failed to parse JSON" msg = true).
Proof.
  pose proof (deserializeWithZodSafe_outcomes JSON.parse sentimentObject
                sentimentObjectSchema) as (Hdata & Hraise & _).
  split.
  - exists {| issues := [sentiment_issue] |}.
    apply (Hdata (VObject happy_high) (VObject happy_high)); reflexivity.
  - apply (Hraise invalid_json (SyntaxError "Unexpected token in JSON")).
    reflexivity.
Defined.

(** ** The array forms *)

(** C7. When the decoded or passed-through value is not a sequence, both
    array forms raise "Input must be an array", and nothing else happens. *)
Theorem array_forms_require_array (JSON_parse : string -> outcome value)
  (classType : class) (schema : ZodType) (jsonArray arr : value) :
  parse_if_string JSON_parse jsonArray = Return arr ->
  Array_isArray arr = false ->
  deserializeArray JSON_parse jsonArray classType
    = Throw (Error "Input must be an array") /\
  deserializeArrayWithZod JSON_parse jsonArray classType schema
    = Throw (Error "Input must be an array").
Proof.
  intros Hdecoded Hnot.
  unfold deserializeArray, deserializeArrayWithZod. rewrite Hdecoded. simpl.
  destruct arr; try discriminate; split; reflexivity.
Qed.

(** The text of a mapping is not the text of a sequence. *)
Lemma array_forms_require_array_witness :
  deserializeArray JSON.parse (VString negative_low_text) sentimentObject
    = Throw (Error "Input must be an array") /\
  deserializeArrayWithZod JSON.parse (VString negative_low_text) sentimentObject
    sentimentObjectSchema = Throw (Error "Input must be an array").
Proof.
  apply (array_forms_require_array JSON.parse sentimentObject sentimentObjectSchema
           (VString negative_low_text) (VObject negative_low)).
  - vm_compute. reflexivity.
  - reflexivity.
Defined.

(** [map] over the image of a list, when the callback returns on each. *)
Lemma Array_map_Return {A B C} (h : A -> C) (f : C -> outcome B) (g : A -> B)
  (arr : list A) :
  Forall (fun item => f (h item) = Return (g item)) arr ->
  Array_map f (h <$> arr) = Return (g <$> arr).
Proof.
  induction 1 as [|item rest Hitem _ IH]; csimpl.
  - reflexivity.
  - rewrite Hitem. csimpl. rewrite IH. reflexivity.
Qed.

(** C8. On a sequence of N valid mappings both array forms return N
    instances, the i-th one being what the single-object form returns for the
    i-th mapping and carrying its [sentiment] and [urgency]; on the empty
    sequence they return the empty sequence. *)
Theorem array_forms_in_order (JSON_parse : string -> outcome value)
  (classType : class) (jsonArray : value) (ms : list (gmap string value)) :
  parse_if_string JSON_parse jsonArray = Return (VArray (VObject <$> ms)) ->
  Forall (fun m => conforms m = true) ms ->
  exists unchecked checked,
    deserializeArray JSON_parse jsonArray classType = Return unchecked /\
    deserializeArrayWithZod JSON_parse jsonArray classType sentimentObjectSchema
      = Return checked /\
    length unchecked = length ms /\
    length checked = length ms /\
    (ms = [] -> unchecked = [] /\ checked = []) /\
    forall i m, ms !! i = Some m ->
      exists a b,
        unchecked !! i = Some a /\ checked !! i = Some b /\
        deserialize JSON_parse (VObject m) classType = Return a /\
        deserializeWithZod JSON_parse (VObject m) classType sentimentObjectSchema
          = Return b /\
        own a !! "sentiment" = m !! "sentiment" /\
        own a !! "urgency" = m !! "urgency" /\
        own b !! "sentiment" = m !! "sentiment" /\
        own b !! "urgency" = m !! "urgency".
Proof.
  intros Hdecoded Hvalid.
  set (f := fun m => {| prototype := prototype_after classType m;
                        own := delete "__proto__" m |}).
  set (g := fun m => {| prototype := prototype_of classType; own := recognized m |}).
  exists (f <$> ms), (g <$> ms).
  unfold deserializeArray, deserializeArrayWithZod. rewrite Hdecoded. simpl.
  split; [|split; [|split; [|split; [|split]]]].
  - apply Array_map_Return, Forall_forall. intros m _. apply deserialize_object.
  - apply Array_map_Return. eapply Forall_impl; [exact Hvalid|].
    intros m Hc. by apply deserializeWithZod_object.
  - apply length_fmap.
  - apply length_fmap.
  - by intros ->.
  - intros i m Hi. exists (f m), (g m).
    rewrite !list_lookup_fmap, Hi. simpl.
    assert (Hc : conforms m = true).
    { eapply Forall_lookup_1 in Hvalid; [exact Hvalid | exact Hi]. }
    rewrite deserialize_object, deserializeWithZod_object by done.
    rewrite !lookup_delete_ne by done.
    rewrite !recognized_lookup by done. done.
Qed.

(** The three mappings of the tests of the array forms, in their order. *)
Lemma array_forms_in_order_witness :
  let ms : list (gmap string value) :=
    [ positive_high;
      {[ "sentiment" := VString "neutral"; "urgency" := VString "medium" ]};
      negative_low ] in
  exists unchecked checked,
    deserializeArray JSON.parse (VArray (VObject <$> ms)) sentimentObject
      = Return unchecked /\
    deserializeArrayWithZod JSON.parse (VArray (VObject <$> ms)) sentimentObject
      sentimentObjectSchema = Return checked /\
    length unchecked = 3 /\ length checked = 3.
Proof.
  intros ms.
  destruct (array_forms_in_order JSON.parse sentimentObject (VArray (VObject <$> ms)) ms)
    as (unchecked & checked & H1 & H2 & L1 & L2 & _).
  - reflexivity.
  - repeat constructor.
  - exists unchecked, checked. repeat split; assumption.
Defined.

(** ** Text and parsed mapping *)

(** C9. When [JSON.parse] decodes a text to a valid mapping, each
    single-object form returns for the text the instance it returns for the
    mapping. *)
Theorem text_or_parsed (JSON_parse : string -> outcome value) (classType : class)
  (text : string) (m : gmap string value) :
  JSON_parse text = Return (VObject m) ->
  conforms m = true ->
  (exists inst,
     deserialize JSON_parse (VObject m) classType = Return inst /\
     deserialize JSON_parse (VString text) classType = Return inst) /\
  (exists inst,
     deserializeWithValidation JSON_parse (VObject m) classType
       SentimentObjectValidator.new = Return inst /\
     deserializeWithValidation JSON_parse (VString text) classType
       SentimentObjectValidator.new = Return inst) /\
  (exists inst,
     deserializeWithZod JSON_parse (VObject m) classType sentimentObjectSchema
       = Return inst /\
     deserializeWithZod JSON_parse (VString text) classType sentimentObjectSchema
       = Return inst).
Proof.
  intros Hdecoded Hc.
  assert (Hsame : parse_if_string JSON_parse (VString text)
                  = parse_if_string JSON_parse (VObject m)) by exact Hdecoded.
  split; [|split]; eexists; split.
  - apply deserialize_object.
  - unfold deserialize. rewrite Hsame. apply (deserialize_object JSON_parse).
  - by apply deserializeWithValidation_object.
  - unfold deserializeWithValidation. rewrite Hsame.
    by apply (deserializeWithValidation_object JSON_parse).
  - by apply deserializeWithZod_object.
  - unfold deserializeWithZod. rewrite Hsame.
    by apply (deserializeWithZod_object JSON_parse).
Qed.

(** The text of the second test of each strategy. *)
Lemma text_or_parsed_witness :
  exists inst,
    deserialize JSON.parse (VObject negative_low) sentimentObject = Return inst /\
    deserialize JSON.parse (VString negative_low_text) sentimentObject = Return inst.
Proof.
  refine (proj1 (text_or_parsed JSON.parse sentimentObject negative_low_text
                   negative_low _ _)).
  - vm_compute. reflexivity.
  - reflexivity.
Defined.

(** ** The invariant of validated instances *)

(** C10. What the validator returns is a mapping whose [sentiment] is one of
    positive, negative, neutral and whose [urgency] is one of high, medium,
    low; so are the fields of every instance that [deserializeWithValidation]
    returns with this validator. *)
Theorem validated_in_domain :
  (forall obj validated,
     SentimentObjectValidator.validate obj = Return validated ->
     exists s u,
       validated = VObject {[ "sentiment" := VString s; "urgency" := VString u ]} /\
       s ∈ Sentiment /\ u ∈ Urgency) /\
  (forall JSON_parse jsonObject classType inst,
     deserializeWithValidation JSON_parse jsonObject classType
       SentimentObjectValidator.new = Return inst ->
     exists s u,
       own inst !! "sentiment" = Some (VString s) /\ s ∈ Sentiment /\
       own inst !! "urgency" = Some (VString u) /\ u ∈ Urgency).
Proof.
  assert (Hvalidate : forall obj validated,
     SentimentObjectValidator.validate obj = Return validated ->
     exists s u,
       validated = VObject {[ "sentiment" := VString s; "urgency" := VString u ]} /\
       s ∈ Sentiment /\ u ∈ Urgency).
  { intros obj validated Hret.
    destruct obj as [ | | | | |items|m];
      [discriminate Hret .. | rewrite validate_object in Hret].
    unfold first_violation, check_field in Hret.
    destruct (m !! "sentiment") as [[ | | | |s| | ]|] eqn:Hs; try discriminate.
    destruct (bool_decide (s ∈ Sentiment)) eqn:Hsd; try discriminate.
    destruct (m !! "urgency") as [[ | | | |u| | ]|] eqn:Hu; try discriminate.
    destruct (bool_decide (u ∈ Urgency)) eqn:Hud; try discriminate.
    injection Hret as <-. exists s, u.
    apply bool_decide_eq_true in Hsd, Hud.
    unfold recognized. rewrite Hs, Hu. simpl. rewrite insert_empty. done. }
  split; [exact Hvalidate|].
  intros JSON_parse jsonObject classType inst Hret.
  unfold deserializeWithValidation in Hret.
  apply bind_Return in Hret as (obj & _ & Hret).
  apply bind_Return in Hret as (validated & Hvalid & Hret).
  apply Hvalidate in Hvalid as (s & u & -> & Hs & Hu).
  apply Return_inj in Hret as <-. exists s, u.
  rewrite Object_assign_plain by reflexivity. simpl.
  rewrite lookup_insert_eq, lookup_insert_ne, lookup_singleton_eq by done. done.
Qed.

Lemma validated_in_domain_witness :
  (exists s u,
     VObject positive_high = VObject {[ "sentiment" := VString s; "urgency" := VString u ]} /\
     s ∈ Sentiment /\ u ∈ Urgency) /\
  (exists s u,
     positive_high !! "sentiment" = Some (VString s) /\ s ∈ Sentiment /\
     positive_high !! "urgency" = Some (VString u) /\ u ∈ Urgency).
Proof.
  split.
  - apply (proj1 validated_in_domain (VObject positive_high_extra) (VObject positive_high)).
    vm_compute. reflexivity.
  - apply (proj2 validated_in_domain JSON.parse (VObject positive_high_extra) sentimentObject
             {| prototype := prototype_of sentimentObject; own := positive_high |}).
    vm_compute. reflexivity.
Defined.

(** ** The test suite and the examples of the specification, replayed *)

Example deserialize_does_not_validate :
  deserialize JSON.parse (VObject invalid_both) sentimentObject =
  Return {| prototype := prototype_of sentimentObject; own := invalid_both |}.
Proof. vm_compute. reflexivity. Qed.

Example deserialize_text :
  deserialize JSON.parse (VString negative_low_text) sentimentObject =
  Return {| prototype := prototype_of sentimentObject; own := negative_low |}.
Proof. vm_compute. reflexivity. Qed.

Example deserialize_invalid_json :
  exists msg,
    deserialize JSON.parse (VString invalid_json) sentimentObject = Throw (SyntaxError msg) /\
    deserializeWithValidation JSON.parse (VString invalid_json) sentimentObject
      SentimentObjectValidator.new = Throw (SyntaxError msg) /\
    deserializeWithZod JSON.parse (VString invalid_json) sentimentObject
      sentimentObjectSchema = Throw (SyntaxError msg).
Proof. eexists. repeat split; vm_compute; reflexivity. Qed.

Example deserializeWithValidation_null :
  deserializeWithValidation JSON.parse VNull sentimentObject SentimentObjectValidator.new
  = Throw (Error "Input must be an object").
Proof. reflexivity. Qed.

Example deserializeWithValidation_not_a_string :
  deserializeWithValidation JSON.parse
    (VObject {[ "sentiment" := VNumber "123"; "urgency" := VString "high" ]})
    sentimentObject SentimentObjectValidator.new
  = Throw (Error "sentiment must be a string").
Proof. vm_compute. reflexivity. Qed.

Example deserializeWithValidation_urgent :
  deserializeWithValidation JSON.parse
    (VObject {[ "sentiment" := VString "positive"; "urgency" := VString "urgent" ]})
    sentimentObject SentimentObjectValidator.new
  = Throw (Error "urgency must be one of: high, medium, low").
Proof. vm_compute. reflexivity. Qed.

(** One bad element aborts the throwing array form; the unchecked one
    performs no validation and returns both. *)
Example second_element_invalid :
  deserializeArrayWithZod JSON.parse (VArray positive_high_bad_medium) sentimentObject
    sentimentObjectSchema = Throw (ZodErr {| issues := [sentiment_issue] |}) /\
  exists a b,
    deserializeArray JSON.parse (VArray positive_high_bad_medium) sentimentObject
    = Return [a; b].
Proof. split; [|eexists _, _]; vm_compute; reflexivity. Qed.

Example empty_arrays :
  deserializeArray JSON.parse (VArray []) sentimentObject = Return [] /\
  deserializeArrayWithZod JSON.parse (VArray []) sentimentObject sentimentObjectSchema
  = Return [].
Proof. split; reflexivity. Qed.

(** A parsed key [__proto__] is not stored by the unchecked path: it replaces
    the prototype of the instance. *)
Example deserialize_proto_key :
  deserialize JSON.parse (VString proto_text) sentimentObject =
  Return {| prototype := proto_value (VObject {[ "x" := VNumber "1" ]});
            own := {[ "sentiment" := VString "positive" ]} |}.
Proof. vm_compute. reflexivity. Qed.

(** * Further properties *)

(** ** Shared lemmas *)

Lemma parse_if_string_Throw (JSON_parse : string -> outcome value) (input : value) (e : exn) :
  parse_if_string JSON_parse input = Throw e <->
  exists text, input = VString text /\ JSON_parse text = Throw e.
Proof.
  split.
  - destruct input; try discriminate. simpl. eauto.
  - intros (text & -> & Hthrow). exact Hthrow.
Qed.

Lemma first_violation_conforms (m : gmap string value) :
  first_violation m = None <-> conforms m = true.
Proof.
  split; [|apply conforms_no_violation].
  unfold first_violation, check_field, conforms, in_domain.
  destruct (m !! "sentiment") as [[ | | | |s| | ]|]; try discriminate.
  destruct (bool_decide (s ∈ Sentiment)); try discriminate.
  destruct (m !! "urgency") as [[ | | | |u| | ]|]; try discriminate.
  destruct (bool_decide (u ∈ Urgency)); [reflexivity | discriminate].
Qed.

(** The validator on every kind of input. *)
Lemma validate_cases (obj : value) :
  SentimentObjectValidator.validate obj =
  match obj with
  | VObject m =>
      match first_violation m with
      | Some v => Throw (Error (message_of v))
      | None => Return (VObject (recognized m))
      end
  | VArray _ => Throw (Error "sentiment must be a string")
  | _ => Throw (Error "Input must be an object")
  end.
Proof. destruct obj; try reflexivity. apply validate_object. Qed.

Lemma validate_Return (obj validated : value) :
  SentimentObjectValidator.validate obj = Return validated ->
  exists m, obj = VObject m /\ conforms m = true /\ validated = VObject (recognized m).
Proof.
  rewrite validate_cases. destruct obj as [ | | | | |items|m]; try discriminate.
  destruct (first_violation m) eqn:Hfirst; [discriminate|].
  intros <-%Return_inj. exists m. by rewrite <- first_violation_conforms.
Qed.

Lemma parse_sentimentObjectSchema (obj : value) :
  parse sentimentObjectSchema obj =
  match obj with
  | VObject m =>
      if conforms m then Return (VObject (recognized m))
      else Throw (ZodErr {| issues := violations m |})
  | _ =>
      Throw (ZodErr {| issues :=
        [ {| path := [];
             message := "Invalid input: expected object, received " ++ received obj |} ] |})
  end.
Proof.
  destruct obj as [ | | | | |items|m]; try reflexivity.
  unfold parse. rewrite safeParse_sentimentObjectSchema.
  destruct (conforms m); reflexivity.
Qed.

Lemma parse_sentimentObjectSchema_Return (obj validated : value) :
  parse sentimentObjectSchema obj = Return validated ->
  exists m, obj = VObject m /\ conforms m = true /\ validated = VObject (recognized m).
Proof.
  rewrite parse_sentimentObjectSchema.
  destruct obj as [ | | | | |items|m]; try discriminate.
  destruct (conforms m) eqn:Hc; [|discriminate].
  intros <-%Return_inj. eauto.
Qed.

Lemma recognized_sentiment (m : gmap string value) :
  recognized m !! "sentiment" = Some (default VUndefined (m !! "sentiment")).
Proof. unfold recognized. apply lookup_insert_eq. Qed.

Lemma recognized_urgency (m : gmap string value) :
  recognized m !! "urgency" = Some (default VUndefined (m !! "urgency")).
Proof. unfold recognized. rewrite lookup_insert_ne by done. apply lookup_insert_eq. Qed.

Lemma recognized_idemp (m : gmap string value) : recognized (recognized m) = recognized m.
Proof.
  unfold recognized at 1. rewrite recognized_sentiment, recognized_urgency. reflexivity.
Qed.

Lemma recognized_conforms (m : gmap string value) :
  conforms (recognized m) = conforms m.
Proof.
  unfold conforms. rewrite recognized_sentiment, recognized_urgency.
  destruct (m !! "sentiment") as [[]|], (m !! "urgency") as [[]|]; reflexivity.
Qed.

Lemma dom_recognized (m : gmap string value) :
  dom (recognized m) = {[ "sentiment"; "urgency" ]}.
Proof.
  unfold recognized. rewrite !dom_insert_L, dom_empty_L, union_empty_r_L. reflexivity.
Qed.

(** [map] returns exactly when the callback returns on every element, and
    then element by element. *)
Lemma Array_map_Forall2 {A B} (f : A -> outcome B) (arr : list A) (out : list B) :
  Array_map f arr = Return out <-> Forall2 (fun item x => f item = Return x) arr out.
Proof.
  revert out. induction arr as [|item rest IH]; intros out; simpl.
  - split.
    + intros <-%Return_inj. constructor.
    + intros ->%Forall2_nil_inv_l. reflexivity.
  - split.
    + intros (x & Hx & Hrest)%bind_Return.
      apply bind_Return in Hrest as (xs & Hxs & <-%Return_inj).
      constructor; [exact Hx | by apply IH].
    + intros (x & xs & Hx & Hxs & ->)%Forall2_cons_inv_l.
      rewrite Hx. simpl. apply IH in Hxs. rewrite Hxs. reflexivity.
Qed.

(** [map] stops at the first element on which the callback throws. *)
Lemma Array_map_first_Throw {A B} (f : A -> outcome B) (before : list A) (bad : A)
  (rest : list A) (e : exn) :
  Forall (fun item => exists x, f item = Return x) before ->
  f bad = Throw e ->
  Array_map f (before ++ bad :: rest) = Throw e.
Proof.
  intros Hbefore Hbad.
  induction Hbefore as [|item before [x Hx] _ IH]; simpl.
  - rewrite Hbad. reflexivity.
  - rewrite Hx. simpl. rewrite IH. reflexivity.
Qed.

(** ** Deserialized instances and the constructor *)

(** X1. On a valid mapping, whatever other fields it has, the
    hand-written-validator path and the schema path return the object that
    [new sentimentObject(sentiment, urgency)] constructs from the two values;
    so does the unchecked path when the mapping has no other field. *)
Theorem deserialized_as_constructed (JSON_parse : string -> outcome value)
  (m : gmap string value) (sentiment urgency : value) :
  conforms m = true ->
  m !! "sentiment" = Some sentiment ->
  m !! "urgency" = Some urgency ->
  deserializeWithValidation JSON_parse (VObject m) sentimentObject
    SentimentObjectValidator.new = Return (new_sentimentObject sentiment urgency) /\
  deserializeWithZod JSON_parse (VObject m) sentimentObject sentimentObjectSchema
    = Return (new_sentimentObject sentiment urgency) /\
  (exactly_recognized m ->
   deserialize JSON_parse (VObject m) sentimentObject
   = Return (new_sentimentObject sentiment urgency)).
Proof.
  intros Hc Hs Hu.
  assert (Hnew : new_sentimentObject sentiment urgency =
                 {| prototype := prototype_of sentimentObject; own := recognized m |}).
  { unfold new_sentimentObject, set_property, recognized. simpl.
    rewrite Hs, Hu. reflexivity. }
  rewrite Hnew. split; [|split].
  - by apply deserializeWithValidation_object.
  - by apply deserializeWithZod_object.
  - intros Hexact. rewrite deserialize_object. unfold prototype_after.
    rewrite (exact_no_proto m Hexact), delete_id by (by apply exact_no_proto).
    by rewrite recognized_exact.
Qed.

Lemma deserialized_as_constructed_witness :
  deserializeWithValidation JSON.parse (VObject positive_high_extra) sentimentObject
    SentimentObjectValidator.new
  = Return (new_sentimentObject (VString "positive") (VString "high")) /\
  deserializeWithZod JSON.parse (VObject positive_high_extra) sentimentObject
    sentimentObjectSchema
  = Return (new_sentimentObject (VString "positive") (VString "high")).
Proof.
  destruct (deserialized_as_constructed JSON.parse positive_high_extra
              (VString "positive") (VString "high") eq_refl eq_refl eq_refl)
    as (Hvalidated & Hschema & _).
  split; assumption.
Defined.

(** ** Failures of [JSON.parse] *)

(** X2. A text that [JSON.parse] rejects makes each of the five throwing forms
    raise the exception of [JSON.parse] itself, unchanged, whatever the
    validator and the schema. *)
Theorem parse_failure_propagates (JSON_parse : string -> outcome value)
  (classType : class) (validator : Validator) (schema : ZodType)
  (text : string) (e : exn) :
  JSON_parse text = Throw e ->
  deserialize JSON_parse (VString text) classType = Throw e /\
  deserializeArray JSON_parse (VString text) classType = Throw e /\
  deserializeWithValidation JSON_parse (VString text) classType validator = Throw e /\
  deserializeWithZod JSON_parse (VString text) classType schema = Throw e /\
  deserializeArrayWithZod JSON_parse (VString text) classType schema = Throw e.
Proof.
  intros Hthrow.
  unfold deserialize, deserializeArray, deserializeWithValidation, deserializeWithZod,
    deserializeArrayWithZod.
  simpl. rewrite Hthrow. simpl. done.
Qed.

Lemma parse_failure_propagates_witness :
  deserialize JSON.parse (VString invalid_json) sentimentObject
    = Throw (SyntaxError "Unexpected token in JSON") /\
  deserializeArrayWithZod JSON.parse (VString invalid_json) sentimentObject
    sentimentObjectSchema = Throw (SyntaxError "Unexpected token in JSON").
Proof.
  destruct (parse_failure_propagates JSON.parse sentimentObject
              SentimentObjectValidator.new sentimentObjectSchema invalid_json
              (SyntaxError "Unexpected token in JSON") eq_refl)
    as (H1 & _ & _ & _ & H5).
  split; assumption.
Defined.

(** X3. The unchecked form raises in one case only: its input is a string and
    [JSON.parse] rejects it.  Every other input, valid or not, mapping or
    not, yields an instance. *)
Theorem deserialize_throws_iff (JSON_parse : string -> outcome value)
  (classType : class) (jsonObject : value) (e : exn) :
  deserialize JSON_parse jsonObject classType = Throw e <->
  exists text, jsonObject = VString text /\ JSON_parse text = Throw e.
Proof.
  rewrite <- parse_if_string_Throw. unfold deserialize.
  destruct (parse_if_string JSON_parse jsonObject); simpl; split; congruence.
Qed.

(** X4. What the unchecked form returns for a decoded value: the instance
    has every own enumerable property of the value but [__proto__], never an
    own [__proto__], and it is an instance of the class exactly when the value
    has no [__proto__] holding an object or [null]. *)
Theorem deserialize_decoded (JSON_parse : string -> outcome value)
  (classType : class) (jsonObject obj : value) :
  parse_if_string JSON_parse jsonObject = Return obj ->
  exists inst,
    deserialize JSON_parse jsonObject classType = Return inst /\
    own inst !! "__proto__" = None /\
    (forall key, key <> "__proto__" -> own inst !! key = own_enumerable obj !! key) /\
    instanceof inst classType
      = negb (replaces_prototype (own_enumerable obj !! "__proto__")).
Proof.
  intros Hdecoded. unfold deserialize. rewrite Hdecoded. simpl.
  rewrite Object_assign_fresh. eexists. split; [reflexivity|]. simpl.
  split; [apply lookup_delete_eq|].
  split; [intros key Hkey; by apply lookup_delete_ne|].
  unfold instanceof, prototype_after. simpl.
  destruct (own_enumerable obj !! "__proto__") as [[]|]; simpl;
    try reflexivity; destruct classType as [name]; simpl; apply String.eqb_refl.
Qed.

Lemma deserialize_decoded_witness :
  exists inst,
    deserialize JSON.parse (VString proto_text) sentimentObject = Return inst /\
    own inst !! "__proto__" = None /\
    own inst !! "sentiment" = Some (VString "positive") /\
    instanceof inst sentimentObject = false.
Proof.
  destruct (deserialize_decoded JSON.parse sentimentObject (VString proto_text)
              (VObject {[ "__proto__" := VObject {[ "x" := VNumber "1" ]};
                          "sentiment" := VString "positive" ]}))
    as (inst & Hret & Hproto & Hfields & Hclass).
  - vm_compute. reflexivity.
  - exists inst. split; [exact Hret|]. split; [exact Hproto|].
    split; [rewrite Hfields by discriminate; reflexivity | exact Hclass].
Defined.

(** ** The validated paths *)

Section Validated.

Variable JSON_parse : string -> outcome value.
Variable classType : class.

(** What the two validated paths return, from what they decoded. *)
Lemma deserializeWithValidation_Return (jsonObject : value) (inst : instance) :
  deserializeWithValidation JSON_parse jsonObject classType SentimentObjectValidator.new
    = Return inst <->
  exists m, parse_if_string JSON_parse jsonObject = Return (VObject m) /\
            conforms m = true /\
            inst = {| prototype := prototype_of classType; own := recognized m |}.
Proof.
  unfold deserializeWithValidation. split.
  - intros (obj & Hdecoded & Hret)%bind_Return.
    apply bind_Return in Hret as (validated & Hvalid & Hret).
    simpl in Hvalid. apply validate_Return in Hvalid as (m & -> & Hc & ->).
    apply Return_inj in Hret as <-.
    exists m. rewrite Object_assign_plain by apply recognized_no_proto. done.
  - intros (m & -> & Hc & ->). simpl.
    rewrite validate_conforming by done. simpl.
    rewrite Object_assign_plain by apply recognized_no_proto. reflexivity.
Qed.

Lemma deserializeWithZod_Return (jsonObject : value) (inst : instance) :
  deserializeWithZod JSON_parse jsonObject classType sentimentObjectSchema
    = Return inst <->
  exists m, parse_if_string JSON_parse jsonObject = Return (VObject m) /\
            conforms m = true /\
            inst = {| prototype := prototype_of classType; own := recognized m |}.
Proof.
  unfold deserializeWithZod. split.
  - intros (obj & Hdecoded & Hret)%bind_Return.
    apply bind_Return in Hret as (validated & Hvalid & Hret).
    apply parse_sentimentObjectSchema_Return in Hvalid as (m & -> & Hc & ->).
    apply Return_inj in Hret as <-.
    exists m. rewrite Object_assign_plain by apply recognized_no_proto. done.
  - intros (m & -> & Hc & ->). cbn [bind].
    rewrite parse_sentimentObjectSchema, Hc. cbn [bind].
    rewrite Object_assign_plain by apply recognized_no_proto. reflexivity.
Qed.

(** X5. An instance returned by the hand-written-validator path or by the
    schema path is an instance of the class and has exactly the two fields
    [sentiment] and [urgency], whatever the input held besides. *)
Theorem validated_instance_shape (jsonObject : value) (inst : instance) :
  deserializeWithValidation JSON_parse jsonObject classType SentimentObjectValidator.new
    = Return inst \/
  deserializeWithZod JSON_parse jsonObject classType sentimentObjectSchema
    = Return inst ->
  instanceof inst classType = true /\
  dom (own inst) = {[ "sentiment"; "urgency" ]}.
Proof.
  intros [(m & _ & _ & ->)%deserializeWithValidation_Return
         |(m & _ & _ & ->)%deserializeWithZod_Return];
    (split; [destruct classType; apply String.eqb_refl | apply dom_recognized]).
Qed.

(** X8. The two validated paths accept the same inputs and return the same
    instance for them: the hand-written validator and the schema differ only
    in what they raise. *)
Theorem validated_paths_agree (jsonObject : value) (inst : instance) :
  deserializeWithValidation JSON_parse jsonObject classType SentimentObjectValidator.new
    = Return inst <->
  deserializeWithZod JSON_parse jsonObject classType sentimentObjectSchema
    = Return inst.
Proof. rewrite deserializeWithValidation_Return, deserializeWithZod_Return. reflexivity. Qed.

(** X13. Deserializing again the fields of an instance that a validated path
    returned gives the same instance. *)
Theorem validated_idempotent (jsonObject : value) (inst : instance) :
  deserializeWithValidation JSON_parse jsonObject classType SentimentObjectValidator.new
    = Return inst \/
  deserializeWithZod JSON_parse jsonObject classType sentimentObjectSchema
    = Return inst ->
  deserializeWithValidation JSON_parse (VObject (own inst)) classType
    SentimentObjectValidator.new = Return inst /\
  deserializeWithZod JSON_parse (VObject (own inst)) classType sentimentObjectSchema
    = Return inst.
Proof.
  intros [(m & _ & Hc & ->)%deserializeWithValidation_Return
         |(m & _ & Hc & ->)%deserializeWithZod_Return]; simpl;
    (split;
     [apply deserializeWithValidation_Return | apply deserializeWithZod_Return];
     exists (recognized m);
     rewrite recognized_conforms, recognized_idemp; done).
Qed.

(** X14. Deserializing again, unchecked, the fields of an instance that the
    unchecked form returned gives an instance of the class with the same
    fields. *)
Theorem unchecked_fields_stable (jsonObject : value) (inst : instance) :
  deserialize JSON_parse jsonObject classType = Return inst ->
  deserialize JSON_parse (VObject (own inst)) classType =
  Return {| prototype := prototype_of classType; own := own inst |}.
Proof.
  unfold deserialize at 1.
  intros (obj & _ & Hret)%bind_Return. apply Return_inj in Hret as <-.
  rewrite Object_assign_fresh. simpl.
  unfold deserialize. simpl.
  rewrite Object_assign_plain by apply lookup_delete_eq. reflexivity.
Qed.

End Validated.

Lemma validated_instance_shape_witness :
  exists inst,
    deserializeWithZod JSON.parse (VObject positive_high_extra) sentimentObject
      sentimentObjectSchema = Return inst /\
    instanceof inst sentimentObject = true /\
    dom (own inst) = {[ "sentiment"; "urgency" ]}.
Proof.
  exists {| prototype := prototype_of sentimentObject; own := positive_high |}.
  split; [vm_compute; reflexivity|].
  apply (validated_instance_shape JSON.parse sentimentObject (VObject positive_high_extra)).
  right. vm_compute. reflexivity.
Defined.

Lemma validated_paths_agree_witness :
  deserializeWithZod JSON.parse (VString negative_low_text) sentimentObject
    sentimentObjectSchema
  = Return {| prototype := prototype_of sentimentObject; own := negative_low |}.
Proof.
  apply (proj1 (validated_paths_agree JSON.parse sentimentObject
                  (VString negative_low_text) _)).
  vm_compute. reflexivity.
Defined.

Lemma validated_idempotent_witness :
  deserializeWithValidation JSON.parse (VObject positive_high) sentimentObject
    SentimentObjectValidator.new
  = Return {| prototype := prototype_of sentimentObject; own := positive_high |} /\
  deserializeWithZod JSON.parse (VObject positive_high) sentimentObject
    sentimentObjectSchema
  = Return {| prototype := prototype_of sentimentObject; own := positive_high |}.
Proof.
  apply (validated_idempotent JSON.parse sentimentObject (VObject positive_high_extra)
           {| prototype := prototype_of sentimentObject; own := positive_high |}).
  left. vm_compute. reflexivity.
Defined.

Lemma unchecked_fields_stable_witness :
  let inst := {| prototype := proto_value (VObject {[ "x" := VNumber "1" ]});
                 own := {[ "sentiment" := VString "positive" ]} |} in
  deserialize JSON.parse (VObject (own inst)) sentimentObject
  = Return {| prototype := prototype_of sentimentObject; own := own inst |}.
Proof.
  intros inst.
  apply (unchecked_fields_stable JSON.parse sentimentObject (VString proto_text) inst).
  vm_compute. reflexivity.
Defined.

(** ** The hand-written validator, completed *)

(** X6. The validator accepts exactly the mappings whose [sentiment] and
    [urgency] are strings of their enumerations, whatever else they hold, and
    returns those two fields of the input and nothing more. *)
Theorem validate_returns_iff (obj validated : value) :
  SentimentObjectValidator.validate obj = Return validated <->
  exists m, obj = VObject m /\ conforms m = true /\ validated = VObject (recognized m).
Proof.
  split; [apply validate_Return|].
  intros (m & -> & Hc & ->). by apply validate_conforming.
Qed.

Lemma first_violation_message (m : gmap string value) (v : violation) :
  first_violation m = Some v -> message_of v ∈ validate_messages.
Proof.
  unfold first_violation, check_field.
  destruct (m !! "sentiment") as [[ | | | |s| | ]|];
    try (intros [= <-]; refine (bool_decide_unpack _ _); vm_compute; exact I).
  destruct (bool_decide (s ∈ Sentiment));
    [|intros [= <-]; refine (bool_decide_unpack _ _); vm_compute; exact I].
  destruct (m !! "urgency") as [[ | | | |u| | ]|];
    try (intros [= <-]; refine (bool_decide_unpack _ _); vm_compute; exact I).
  destruct (bool_decide (u ∈ Urgency)); [discriminate|].
  intros [= <-]; refine (bool_decide_unpack _ _); vm_compute; exact I.
Qed.

(** X7. Whatever its input, the validator raises nothing but an [Error] with
    one of the five messages of its source; in particular reading the fields
    never raises a [TypeError], the test on the input coming first. *)
Theorem validate_raises_only (obj : value) (e : exn) :
  SentimentObjectValidator.validate obj = Throw e ->
  exists msg, e = Error msg /\ msg ∈ validate_messages.
Proof.
  rewrite validate_cases.
  destruct obj as [ | | | | |items|m];
    try (intros [= <-]; eexists; split; [reflexivity|];
         refine (bool_decide_unpack _ _); vm_compute; exact I).
  destruct (first_violation m) as [v|] eqn:Hfirst; [|discriminate].
  intros [= <-]. eexists. split; [reflexivity|].
  by eapply first_violation_message.
Qed.

Lemma validate_raises_only_witness :
  exists msg, Error "sentiment must be a string" = Error msg /\ msg ∈ validate_messages.
Proof.
  apply (validate_raises_only (VArray []) (Error "sentiment must be a string")).
  reflexivity.
Defined.

(** ** The two schema forms *)

(** X9. The non-throwing schema form and the throwing one decide alike, for
    every schema: a success carries the instance the throwing form returns, a
    failure carries the error the throwing form raises, and the non-throwing
    form raises only when the throwing one raises what [JSON.parse] raised,
    which it wraps. *)
Theorem safe_form_follows_throwing_form (JSON_parse : string -> outcome value)
  (classType : class) (schema : ZodType) (jsonObject : value) :
  match deserializeWithZodSafe JSON_parse jsonObject classType schema with
  | Return (Success inst) =>
      deserializeWithZod JSON_parse jsonObject classType schema = Return inst
  | Return (Failure error) =>
      deserializeWithZod JSON_parse jsonObject classType schema = Throw (ZodErr error)
  | Throw wrapped =>
      exists text e,
        jsonObject = VString text /\ JSON_parse text = Throw e /\
        deserializeWithZod JSON_parse jsonObject classType schema = Throw e /\
        wrapped = Error ("Failed to parse JSON: " ++ String_of_exn e)
  end.
Proof.
  unfold deserializeWithZodSafe, deserializeWithZod, parse.
  destruct (parse_if_string JSON_parse jsonObject) as [obj|e] eqn:Hdecoded; simpl.
  - destruct (safeParse schema obj); reflexivity.
  - apply parse_if_string_Throw in Hdecoded as (text & -> & Hthrow).
    exists text, e. done.
Qed.

(** ** The array forms, completed *)

(** X10. An array form returns exactly when its input decodes to a sequence on
    every element of which the single-object form returns, and it returns
    these results element by element; an element that is a string is thus
    itself decoded. *)
Theorem array_form_is_map (JSON_parse : string -> outcome value) (classType : class)
  (schema : ZodType) (jsonArray : value) (insts : list instance) :
  (deserializeArray JSON_parse jsonArray classType = Return insts <->
   exists items,
     parse_if_string JSON_parse jsonArray = Return (VArray items) /\
     Forall2 (fun item inst => deserialize JSON_parse item classType = Return inst)
       items insts) /\
  (deserializeArrayWithZod JSON_parse jsonArray classType schema = Return insts <->
   exists items,
     parse_if_string JSON_parse jsonArray = Return (VArray items) /\
     Forall2 (fun item inst =>
                deserializeWithZod JSON_parse item classType schema = Return inst)
       items insts).
Proof.
  unfold deserializeArray, deserializeArrayWithZod.
  destruct (parse_if_string JSON_parse jsonArray) as [arr|e]; cbn [bind].
  - destruct arr as [ | | | | |items|m];
      try (split; (split; [discriminate | intros (items & [=] & _)])).
    split; rewrite Array_map_Forall2; (split; [eauto | by intros (? & [= <-] & ?)]).
  - split; (split; [discriminate | intros (items & [=] & _)]).
Qed.

(** X11. An array form raises what the single-object form raises on the first
    element it fails on; the elements after it are not looked at. *)
Theorem array_form_first_failure (JSON_parse : string -> outcome value)
  (classType : class) (schema : ZodType) (jsonArray : value)
  (before : list value) (bad : value) (rest : list value) (e : exn) :
  parse_if_string JSON_parse jsonArray = Return (VArray (before ++ bad :: rest)) ->
  (Forall (fun item => exists inst,
             deserializeWithZod JSON_parse item classType schema = Return inst) before ->
   deserializeWithZod JSON_parse bad classType schema = Throw e ->
   deserializeArrayWithZod JSON_parse jsonArray classType schema = Throw e) /\
  (Forall (fun item => exists inst,
             deserialize JSON_parse item classType = Return inst) before ->
   deserialize JSON_parse bad classType = Throw e ->
   deserializeArray JSON_parse jsonArray classType = Throw e).
Proof.
  intros Hdecoded. unfold deserializeArray, deserializeArrayWithZod.
  rewrite Hdecoded. simpl.
  split; intros Hbefore Hbad; by apply Array_map_first_Throw.
Qed.

Lemma array_form_first_failure_witness :
  deserializeArrayWithZod JSON.parse (VArray positive_high_bad_medium) sentimentObject
    sentimentObjectSchema = Throw (ZodErr {| issues := [sentiment_issue] |}).
Proof.
  refine (proj1 (array_form_first_failure JSON.parse sentimentObject sentimentObjectSchema
                   (VArray positive_high_bad_medium) [VObject positive_high]
                   (VObject {[ "sentiment" := VString "bad";
                               "urgency" := VString "medium" ]})
                   [] (ZodErr {| issues := [sentiment_issue] |}) eq_refl) _ _).
  - constructor; [|constructor]. eexists. vm_compute. reflexivity.
  - vm_compute. reflexivity.
Defined.

(** X12. The unchecked array form validates nothing: on a sequence that holds
    no string it returns, with one instance per element, whatever the
    elements are. *)
Theorem deserializeArray_never_rejects (JSON_parse : string -> outcome value)
  (classType : class) (jsonArray : value) (items : list value) :
  parse_if_string JSON_parse jsonArray = Return (VArray items) ->
  Forall (fun item => typeof item <> "string") items ->
  exists insts,
    deserializeArray JSON_parse jsonArray classType = Return insts /\
    length insts = length items.
Proof.
  intros Hdecoded Hitems.
  exists ((fun item => Object_assign (Object_create classType) item) <$> items).
  split; [|apply length_fmap].
  unfold deserializeArray. rewrite Hdecoded. simpl.
  apply Array_map_Forall2, Forall2_fmap_r, Forall_Forall2_diag.
  eapply Forall_impl; [exact Hitems|].
  intros item Hitem. destruct item; try reflexivity. by destruct Hitem.
Qed.

Lemma deserializeArray_never_rejects_witness :
  exists insts,
    deserializeArray JSON.parse (VArray [VObject invalid_both; VNull; VArray []])
      sentimentObject = Return insts /\
    length insts = 3.
Proof.
  apply (deserializeArray_never_rejects JSON.parse sentimentObject
           (VArray [VObject invalid_both; VNull; VArray []])
           [VObject invalid_both; VNull; VArray []]).
  - reflexivity.
  - repeat constructor; discriminate.
Defined.

(** ** The two validators on the same mapping *)

(** X15. On a mapping that does not conform, both validated paths raise, and
    they name the same field first: the message of the hand-written validator
    begins with the field that is the path of the first issue of the schema's
    aggregate error. *)
Theorem validators_report_same_field (JSON_parse : string -> outcome value)
  (classType : class) (m : gmap string value) :
  conforms m = false ->
  exists v error,
    first_violation m = Some v /\
    deserializeWithValidation JSON_parse (VObject m) classType
      SentimentObjectValidator.new = Throw (Error (message_of v)) /\
    String.prefix (violation_field v) (message_of v) = true /\
    deserializeWithZod JSON_parse (VObject m) classType sentimentObjectSchema
      = Throw (ZodErr error) /\
    path <$> head (issues error) = Some [violation_field v].
Proof.
  intros Hc.
  assert (Hfirst : exists v, first_violation m = Some v /\
                             path <$> head (violations m) = Some [violation_field v] /\
                             String.prefix (violation_field v) (message_of v) = true).
  { revert Hc. unfold conforms, first_violation, check_field, violations, in_domain.
    destruct (m !! "sentiment") as [[ | | | |s| | ]|]; simpl;
      try (intros _; eexists; repeat split; reflexivity).
    destruct (bool_decide (s ∈ Sentiment)); simpl;
      [|intros _; eexists; repeat split; reflexivity].
    destruct (m !! "urgency") as [[ | | | |u| | ]|]; simpl;
      try (intros _; eexists; repeat split; reflexivity).
    destruct (bool_decide (u ∈ Urgency)); simpl;
      [discriminate | intros _; eexists; repeat split; reflexivity]. }
  destruct Hfirst as (v & Hv & Hpath & Hprefix).
  exists v, {| issues := violations m |}.
  split; [exact Hv|]. split; [|split; [exact Hprefix|split; [|exact Hpath]]].
  - unfold deserializeWithValidation. cbn [parse_if_string bind validate].
    change (validate SentimentObjectValidator.new) with SentimentObjectValidator.validate.
    rewrite validate_object, Hv. reflexivity.
  - unfold deserializeWithZod. cbn [parse_if_string bind].
    rewrite parse_sentimentObjectSchema, Hc. reflexivity.
Qed.

Lemma validators_report_same_field_witness :
  exists v error,
    first_violation invalid_both = Some v /\
    deserializeWithValidation JSON.parse (VObject invalid_both) sentimentObject
      SentimentObjectValidator.new = Throw (Error (message_of v)) /\
    String.prefix (violation_field v) (message_of v) = true /\
    deserializeWithZod JSON.parse (VObject invalid_both) sentimentObject
      sentimentObjectSchema = Throw (ZodErr error) /\
    path <$> head (issues error) = Some [violation_field v].
Proof.
  apply (validators_report_same_field JSON.parse sentimentObject invalid_both).
  reflexivity.
Defined.

(** ** Decoded values without properties *)

(** X16. When the input decodes to [null], a boolean or a number, the
    unchecked form does not fail: it returns an instance of the class without
    any field.  Both validated paths raise on the same input. *)
Theorem deserialize_without_properties (JSON_parse : string -> outcome value)
  (classType : class) (jsonObject obj : value) :
  parse_if_string JSON_parse jsonObject = Return obj ->
  without_properties obj = true ->
  deserialize JSON_parse jsonObject classType
    = Return {| prototype := prototype_of classType; own := ∅ |} /\
  deserializeWithValidation JSON_parse jsonObject classType SentimentObjectValidator.new
    = Throw (Error "Input must be an object") /\
  exists error,
    deserializeWithZod JSON_parse jsonObject classType sentimentObjectSchema
      = Throw (ZodErr error).
Proof.
  intros Hdecoded Hnone.
  unfold deserialize, deserializeWithValidation, deserializeWithZod.
  rewrite Hdecoded. cbn [bind].
  rewrite parse_sentimentObjectSchema.
  destruct obj; try discriminate; (split; [reflexivity | split; [reflexivity | eauto]]).
Qed.

(** The text [null]. *)
Lemma deserialize_without_properties_witness :
  deserialize JSON.parse (VString "null") sentimentObject
    = Return {| prototype := prototype_of sentimentObject; own := ∅ |} /\
  deserializeWithValidation JSON.parse (VString "null") sentimentObject
    SentimentObjectValidator.new = Throw (Error "Input must be an object") /\
  exists error,
    deserializeWithZod JSON.parse (VString "null") sentimentObject sentimentObjectSchema
      = Throw (ZodErr error).
Proof.
  apply (deserialize_without_properties JSON.parse sentimentObject (VString "null") VNull);
    reflexivity.
Defined.

(** ** Further runs *)

Lemma deserialize_throws_iff_witness :
  deserialize JSON.parse (VString invalid_json) sentimentObject
  = Throw (SyntaxError "Unexpected token in JSON").
Proof.
  apply (proj2 (deserialize_throws_iff JSON.parse sentimentObject (VString invalid_json)
                  (SyntaxError "Unexpected token in JSON"))).
  exists invalid_json. split; reflexivity.
Defined.

Lemma validate_returns_iff_witness :
  SentimentObjectValidator.validate (VObject positive_high_extra)
  = Return (VObject (recognized positive_high_extra)).
Proof.
  apply (proj2 (validate_returns_iff (VObject positive_high_extra)
                  (VObject (recognized positive_high_extra)))).
  exists positive_high_extra. repeat split; reflexivity.
Defined.

Lemma array_form_is_map_witness :
  deserializeArray JSON.parse (VArray [VObject positive_high; VString negative_low_text])
    sentimentObject
  = Return [ {| prototype := prototype_of sentimentObject; own := positive_high |};
             {| prototype := prototype_of sentimentObject; own := negative_low |} ].
Proof.
  apply (proj2 (proj1 (array_form_is_map JSON.parse sentimentObject sentimentObjectSchema
                         (VArray [VObject positive_high; VString negative_low_text]) _))).
  exists [VObject positive_high; VString negative_low_text].
  split; [reflexivity|].
  repeat constructor; vm_compute; reflexivity.
Defined.
